(** * xrdp-installer.py: the installation-mode controller, embedded and verified

    The script is a sequence of environment probes and external commands.
    It is embedded as a state-and-exception monad over a small world:
    the persisted mode marker, the module-level globals and the list of
    events the process has produced so far.  Everything the host decides
    (outputs of probes, exit status of commands, environment variables)
    is read from an oracle record, so that every statement below
    quantifies over all hosts.

    Conventions of the embedding:
    - a Python function is a definition of the same name; exceptions are
      the [Raise] outcome of the monad, [try]/[except] is [try_except];
    - each function of the script records its entry as a [Call] event, a
      ghost mark that lets statements speak of the branch that was taken;
    - a global name the module binds is a field of [Globals]; a name a
      function reads but the module never binds ([Release], [verbose]) is
      looked up in the namespace the interpreter starts with, and raises
      [NameError] when it is not there;
    - strings are byte strings; standard output is the [Print] events. *)

From Stdlib Require Import String Ascii List ZArith Bool Lia.
From stdpp Require Import gmap strings pretty.
Import ListNotations.
Open Scope string_scope.

(** ** Python strings *)

Definition nl : string := String (ascii_of_nat 10) "".
Definition esc : string := String (ascii_of_nat 27) "".

(** [sub in s] on [str]. *)
Fixpoint str_in (sub s : string) : bool :=
  String.prefix sub s ||
  match s with
  | EmptyString => false
  | String _ s' => str_in sub s'
  end.

(** [str.isspace] on the ASCII range: TAB, LF, VT, FF, CR, FS, GS, RS, US
    and the blank. *)
Definition isspace (c : ascii) : bool :=
  let n := nat_of_ascii c in
  ((9 <=? n)%nat && (n <=? 13)%nat) || ((28 <=? n)%nat && (n <=? 32)%nat).

Fixpoint lstrip (s : string) : string :=
  match s with
  | EmptyString => EmptyString
  | String c s' => if isspace c then lstrip s' else s
  end.

Fixpoint rstrip (s : string) : string :=
  match s with
  | EmptyString => EmptyString
  | String c s' =>
      match rstrip s' with
      | EmptyString => if isspace c then EmptyString else String c EmptyString
      | r => String c r
      end
  end.

(** [s.strip()] *)
Definition strip (s : string) : string := rstrip (lstrip s).

(** [f.readline()] on a file opened in text mode at position 0: universal
    newlines end the line at LF, CR or CR LF, and the terminator is handed
    over as a single LF. *)
Fixpoint readline (s : string) : string :=
  match s with
  | EmptyString => EmptyString
  | String c s' =>
      if (nat_of_ascii c =? 10)%nat || (nat_of_ascii c =? 13)%nat then nl
      else String c (readline s')
  end.

(** Values a global name can be bound to when the interpreter starts. *)
Inductive PyVal :=
| PStr (s : string)
| PBool (b : bool).

(** [str(v)], as an f-string formats it. *)
Definition py_str (v : PyVal) : string :=
  match v with
  | PStr s => s
  | PBool true => "True"
  | PBool false => "False"
  end.

(** Truth value of [v]. *)
Definition py_truthy (v : PyVal) : bool :=
  match v with
  | PStr s => negb (s =? "")
  | PBool b => b
  end.

(** [str(os.cpu_count())]: the call returns an int or [None]. *)
Definition str_cpu_count (n : option nat) : string :=
  match n with
  | Some k => pretty k
  | None => "None"
  end.

(** ** Constants *)

Definition SCRIPT_VER : string := "1.0.0".

Definition COLORS (color : string) : string :=
  if color =? "cyan" then esc +:+ "[1;36m"
  else if color =? "yellow" then esc +:+ "[1;33m"
  else if color =? "green" then esc +:+ "[1;32m"
  else if color =? "red" then esc +:+ "[1;31m"
  else if color =? "purple" then esc +:+ "[1;35m"
  else if color =? "white" then esc +:+ "[1;38m"
  else esc +:+ "[0m".

Definition log_file : string := "/etc/xrdp/xrdp-installer-check.log".

(** ** Events, exceptions, results *)

Inductive event :=
| Probe (cmd : string)            (* subprocess.getoutput(cmd) *)
| Exec (full_command : string) (code : Z)
                                  (* subprocess.run(full_command, shell=True)
                                     and the exit status it came back with *)
| Call (fn : string)              (* entry into a function of the script *)
| Print (text : string)           (* print(text) *)
| Chdir (path : string)           (* os.chdir(path) *)
| Unlink (path : string)          (* os.remove(path) *)
| TempWrite (path content : string). (* content staged in a named temporary file *)

Record CompletedProcess := mkCompleted {
  returncode : Z;
  stdout : string;
  stderr : string
}.

Inductive exn :=
| SetupError (msg : string)
| CalledProcessError (cmd : string) (code : Z) (err : string)
| NameError (name : string)
| OSError (msg : string)
| SystemExit (code : Z).

(** [str(e)] *)
Definition str_exn (e : exn) : string :=
  match e with
  | SetupError msg => msg
  | CalledProcessError cmd code err =>
      "Command '" +:+ cmd +:+ "' returned non-zero exit status " +:+ pretty code +:+ "."
  | NameError name => "name '" +:+ name +:+ "' is not defined"
  | OSError msg => msg
  | SystemExit code => pretty code
  end.

Inductive result (A : Type) :=
| Ok (a : A)
| Raise (e : exn).
Arguments Ok {A} a.
Arguments Raise {A} e.

(** ** The host

    Everything the script asks of its environment.  Answers may depend on
    what the process has done so far, hence the event list. *)
Record Host := mkHost {
  geteuid : Z;
  argv0 : string;
  environ : string -> option string;
  getoutput : list event -> string -> string;
  subprocess_run : list event -> string -> CompletedProcess;
  path_exists : list event -> string -> bool;
  chdir_ok : list event -> string -> bool;
  remove_ok : list event -> string -> bool;
  cpu_count : option nat;
  home : string;
  mktemp : list event -> string;
  temp_write_ok : list event -> bool
}.

(** ** Module-level globals (lines 40-50 of the script) *)
Record Globals := mkGlobals {
  version : string;
  codename : string;
  release : string;
  ucodename : string;
  download_dir : string;
  modetype : string;
  DesktopVer : string;
  SessionVer : string;
  ConfDir : string;
  GDMSess : string;
  HWE : string
}.

Definition with_modetype (v : string) (g : Globals) : Globals :=
  mkGlobals (version g) (codename g) (release g) (ucodename g) (download_dir g)
            v (DesktopVer g) (SessionVer g) (ConfDir g) (GDMSess g) (HWE g).

Definition with_desktop (d s c m : string) (g : Globals) : Globals :=
  mkGlobals (version g) (codename g) (release g) (ucodename g) (download_dir g)
            (modetype g) d s c m (HWE g).

Definition with_HWE (v : string) (g : Globals) : Globals :=
  mkGlobals (version g) (codename g) (release g) (ucodename g) (download_dir g)
            (modetype g) (DesktopVer g) (SessionVer g) (ConfDir g) (GDMSess g) v.

(** CLI flags, the [argparse.Namespace] handed to [main]. *)
Record Args := mkArgs {
  custom : bool;
  remove : bool;
  dev : bool;
  sound : bool;
  verbose : bool;
  cuda : bool;
  nexarian : bool
}.

(** ** The world and the monad *)
Record World := mkWorld {
  state_file : option string;   (* content of [log_file], when it exists *)
  glob : Globals;
  trace : list event
}.

Definition M (A : Type) : Type := World -> result A * World.

Definition ret {A} (a : A) : M A := fun w => (Ok a, w).

Definition bind {A B} (m : M A) (f : A -> M B) : M B := fun w =>
  match m w with
  | (Ok a, w') => f a w'
  | (Raise e, w') => (Raise e, w')
  end.

Definition raise {A} (e : exn) : M A := fun w => (Raise e, w).

(** [try: m except ...: handler e] ; the handler re-raises what it does
    not catch. *)
Definition try_except {A} (m : M A) (handler : exn -> M A) : M A := fun w =>
  match m w with
  | (Ok a, w') => (Ok a, w')
  | (Raise e, w') => handler e w'
  end.

Notation "x <- m ;; k" := (bind m (fun x => k))
  (at level 100, m at level 99, k at level 200, right associativity, only parsing).
Notation "m ;; k" := (bind m (fun _ => k))
  (at level 100, k at level 200, right associativity, only parsing).

(** [if b: m] *)
Definition when (b : bool) (m : M unit) : M unit := if b then m else ret tt.

(** [for x in l: body x] *)
Fixpoint for_each {A} (l : list A) (body : A -> M unit) : M unit :=
  match l with
  | [] => ret tt
  | x :: l' => body x ;; for_each l' body
  end.

Definition emit (e : event) : M unit := fun w =>
  (Ok tt, mkWorld (state_file w) (glob w) (trace w ++ [e])).

Definition get_glob : M Globals := fun w => (Ok (glob w), w).

Definition set_glob (f : Globals -> Globals) : M unit := fun w =>
  (Ok tt, mkWorld (state_file w) (f (glob w)) (trace w)).

(** The command line with which [main] records a mode, as [run_command]
    hands it to the shell. *)
Definition marker_command (token : string) : string :=
  "sudo bash -c 'echo " +:+ token +:+ " > " +:+ log_file +:+ "'".

(** What a command line does to [log_file]: run successfully, a marker
    command leaves the token and a newline there ([echo]); a failed command
    and every other command line of the script, none of which names that
    file, leave it as it is. *)
Definition shell_effect (full_command : string) (code : Z)
    (f : option string) : option string :=
  if (code =? 0)%Z then
    if full_command =? marker_command "custom" then Some ("custom" +:+ nl)
    else if full_command =? marker_command "standard" then Some ("standard" +:+ nl)
    else f
  else f.

(** ** The script *)

Section Script.

(** The host the process runs on, and the names already bound in the
    module namespace when the interpreter starts executing the file.  A name
    the module itself never binds resolves there or not at all. *)
Variable h : Host.
Variable G0 : gmap string PyVal.

(** Loading a global name the module does not bind ([LOAD_GLOBAL]). *)
Definition load_name (name : string) : M PyVal :=
  match G0 !! name with
  | Some v => ret v
  | None => raise (NameError name)
  end.

(** [subprocess.getoutput(cmd)] *)
Definition subprocess_getoutput (cmd : string) : M string := fun w =>
  (Ok (getoutput h (trace w) cmd),
   mkWorld (state_file w) (glob w) (trace w ++ [Probe cmd])).

(** [subprocess.run(full_command, shell=True, check=True, ...)] *)
Definition subprocess_run_check (full_command : string) : M CompletedProcess :=
  fun w =>
    let r := subprocess_run h (trace w) full_command in
    let w' := mkWorld (shell_effect full_command (returncode r) (state_file w))
                      (glob w)
                      (trace w ++ [Exec full_command (returncode r)]) in
    if (returncode r =? 0)%Z then (Ok r, w')
    else (Raise (CalledProcessError full_command (returncode r) (stderr r)), w').

(** [os.path.exists(path)] *)
Definition os_path_exists (path : string) : M bool := fun w =>
  (Ok (if path =? log_file
       then match state_file w with Some _ => true | None => false end
       else path_exists h (trace w) path), w).

(** [open(log_file, 'r')] followed by [f.readline()] *)
Definition open_readline (path : string) : M string := fun w =>
  match state_file w with
  | Some content => (Ok (readline content), w)
  | None => (Raise (OSError ("No such file or directory: " +:+ path)), w)
  end.

(** [os.chdir(path)] *)
Definition os_chdir (path : string) : M unit := fun w =>
  let w' := mkWorld (state_file w) (glob w) (trace w ++ [Chdir path]) in
  if chdir_ok h (trace w) path then (Ok tt, w')
  else (Raise (OSError ("No such file or directory: " +:+ path)), w').

(** [os.remove(path)] *)
Definition os_remove (path : string) : M unit := fun w =>
  let w' := mkWorld (state_file w) (glob w) (trace w ++ [Unlink path]) in
  if remove_ok h (trace w) path then (Ok tt, w')
  else (Raise (OSError ("No such file or directory: " +:+ path)), w').

(** [with tempfile.NamedTemporaryFile(mode='w', delete=False) as temp:
       temp.write(content); temp_path = temp.name] *)
Definition named_temporary_file_write (content : string) : M string := fun w =>
  let temp_path := mktemp h (trace w) in
  if temp_write_ok h (trace w)
  then (Ok temp_path,
        mkWorld (state_file w) (glob w) (trace w ++ [TempWrite temp_path content]))
  else (Raise (OSError "No space left on device"), w).

Definition print (text : string) : M unit := emit (Print text).

Definition print_colored (text color : string) : M unit :=
  print (COLORS color +:+ text +:+ COLORS "reset").

Definition run_command (command : string) (sudo verbose : bool)
    : M CompletedProcess :=
  let full_command := if sudo then "sudo " +:+ command else command in
  when verbose (print_colored ("Executing: " +:+ full_command) "yellow") ;;
  try_except
    (result <- subprocess_run_check full_command ;;
     when (verbose && negb (stdout result =? "")) (print (stdout result)) ;;
     ret result)
    (fun e =>
       match e with
       | CalledProcessError _ _ e_stderr =>
           raise (SetupError ("Command failed: " +:+ full_command +:+ nl
                              +:+ "Error: " +:+ e_stderr))
       | _ => raise e
       end).

Definition write_file_with_sudo (filepath content : string) (verbose : bool)
    : M unit :=
  when verbose (print_colored ("Writing to " +:+ filepath) "yellow") ;;
  try_except
    (temp_path <- named_temporary_file_write content ;;
     run_command ("mv " +:+ temp_path +:+ " " +:+ filepath) true verbose ;;
     run_command ("chmod 644 " +:+ filepath) true verbose ;;
     ret tt)
    (fun e =>
       match e with
       | SystemExit _ => raise e
       | _ => raise (SetupError ("Failed to write file " +:+ filepath +:+ ": "
                                 +:+ str_exn e))
       end).

Definition display_banner : M unit :=
  emit (Call "display_banner") ;;
  print_colored ("   ! xrdp-cuda-installer-" +:+ SCRIPT_VER +:+ " Script") "cyan" ;;
  print_colored "   ! Supports Ubuntu, Debian with optional CUDA installation" "cyan" ;;
  print_colored "   ! Written by David Rush - Feb 2025" "cyan" ;;
  print_colored ("   ! For Help: " +:+ argv0 h +:+ " -h") "cyan" ;;
  print_colored "   ! Disclaimer: Use at your own risk" "white".

Definition check_previous_runs (verbose : bool) : M unit :=
  emit (Call "check_previous_runs") ;;
  present <- os_path_exists log_file ;;
  if present then
    line <- open_readline log_file ;;
    set_glob (with_modetype (strip line)) ;;
    g <- get_glob ;;
    when verbose
      (print_colored ("   Previous mode detected: " +:+ modetype g) "green")
  else ret tt.

Definition environ_get (key default : string) : string :=
  match environ h key with
  | Some v => v
  | None => default
  end.

Definition detect_desktop_environment (verbose : bool) : M unit :=
  emit (Call "detect_desktop_environment") ;;
  if match environ h "XDG_SESSION_TYPE" with
     | Some v => v =? "tty"
     | None => false
     end
  then
    set_glob (with_desktop
                "ubuntu:GNOME" "ubuntu"
                "/usr/share/ubuntu:/usr/local/share/:/usr/share/:/var/lib/snapd/desktop"
                "ubuntu")
  else
    set_glob (with_desktop
                (environ_get "XDG_CURRENT_DESKTOP" "ubuntu:GNOME")
                (environ_get "GNOME_SHELL_SESSION_MODE" "ubuntu")
                (environ_get "XDG_DATA_DIRS"
                             "/usr/share/ubuntu:/usr/local/share/:/usr/share/")
                (environ_get "GDMSESSION" "ubuntu")).

Definition supported : list string := ["Ubuntu 24.04"; "Debian"].

Definition check_os (verbose : bool) : M unit :=
  emit (Call "check_os") ;;
  g <- get_glob ;;
  if negb (existsb (fun v => str_in v (version g)) supported)
  then raise (SetupError ("Unsupported OS: " +:+ version g))
  else ret tt.

Definition check_hwe (verbose : bool) : M unit :=
  emit (Call "check_hwe") ;;
  xorg_no_hwe <- subprocess_getoutput
    "dpkg-query -W -f='${Status}' xserver-xorg-core 2>/dev/null" ;;
  Release <- load_name "Release" ;;
  xorg_hwe <- subprocess_getoutput
    ("dpkg-query -W -f='${Status}' xserver-xorg-core-hwe-" +:+ py_str Release
     +:+ " 2>/dev/null") ;;
  set_glob (with_HWE (if str_in "installed" xorg_hwe then "yes" else "no")).

Definition install_cuda (verbose : bool) : M unit :=
  emit (Call "install_cuda") ;;
  print_colored "   Installing CUDA..." "yellow" ;;
  os_chdir (home h) ;;
  run_command "wget https://developer.download.nvidia.com/compute/cuda/repos/ubuntu2204/x86_64/cuda-keyring_1.1-1_all.deb" false verbose ;;
  run_command "dpkg -i cuda-keyring_1.1-1_all.deb" true verbose ;;
  run_command "apt-get update" true verbose ;;
  run_command "apt-get -y install cuda" true verbose ;;
  os_remove "cuda-keyring_1.1-1_all.deb".

Definition prep_os (verbose : bool) : M unit :=
  emit (Call "prep_os") ;;
  g <- get_glob ;;
  (if str_in "Debian" (version g) then
     run_command "sed -i 's/deb cdrom:/#deb cdrom:/' /etc/apt/sources.list" true verbose ;;
     run_command "apt-get update" true verbose ;;
     ret tt
   else ret tt) ;;
  run_command "apt-get -y install pulseaudio-utils" true verbose ;;
  ret tt.

Definition install_xrdp (verbose : bool) : M unit :=
  emit (Call "install_xrdp") ;;
  run_command "apt-get install xrdp -y" true verbose ;;
  ret tt.

Definition install_prereqs (verbose : bool) : M unit :=
  emit (Call "install_prereqs") ;;
  let packages := "git jq xvfb libmp3lame-dev curl libfuse-dev libx11-dev libxfixes-dev libssl-dev libpam0g-dev libtool libjpeg-dev flex bison gettext autoconf libxml-parser-perl xsltproc libxrandr-dev python3-libxml2 nasm pkg-config intltool checkinstall" in
  run_command ("apt-get -y install " +:+ packages) true verbose ;;
  g <- get_glob ;;
  if HWE g =? "yes" then
    Release <- load_name "Release" ;;
    Release' <- load_name "Release" ;;
    run_command ("apt-get install -y xserver-xorg-dev-hwe-" +:+ py_str Release
                 +:+ " xserver-xorg-core-hwe-" +:+ py_str Release') true verbose ;;
    ret tt
  else
    run_command "apt-get install -y xserver-xorg-dev xserver-xorg-core" true verbose ;;
    ret tt.

Definition get_binaries (args : Args) (verbose : bool) : M unit :=
  emit (Call "get_binaries") ;;
  g <- get_glob ;;
  os_chdir (download_dir g) ;;
  for_each ["xrdp"; "xorgxrdp"] (fun dir_name =>
    present <- os_path_exists dir_name ;;
    if present
    then run_command ("rm -rf " +:+ dir_name) true verbose ;; ret tt
    else ret tt) ;;
  let repo := if negb (nexarian args) then "neutrinolabs" else "Nexarian" in
  let branch := if nexarian args then "mainline_merge"
                else "--branch " +:+ (if dev args then "HEAD" else "latest") in
  run_command ("git clone https://github.com/" +:+ repo +:+ "/xrdp.git " +:+ branch
               +:+ " xrdp --recursive") false verbose ;;
  run_command ("git clone https://github.com/" +:+ repo +:+ "/xorgxrdp.git " +:+ branch
               +:+ " xorgxrdp --recursive") false verbose ;;
  ret tt.

(** [os.path.join(a, b)] for a relative [b]. *)
Definition os_path_join (a b : string) : string :=
  if a =? "" then b
  else if String.prefix "/" (String.string_of_list_ascii
                               (List.rev (String.list_ascii_of_string a)))
       then a +:+ b
       else a +:+ "/" +:+ b.

Definition compile_source (verbose : bool) : M unit :=
  emit (Call "compile_source") ;;
  g <- get_glob ;;
  os_chdir (os_path_join (download_dir g) "xrdp") ;;
  run_command "./bootstrap" true verbose ;;
  run_command "./configure --enable-fuse --enable-jpeg --enable-rfxcodec --enable-mp3lame --enable-vsock" true verbose ;;
  run_command ("make -j " +:+ str_cpu_count (cpu_count h)) true verbose ;;
  run_command "checkinstall --pkgname=xrdp --default" true verbose ;;
  os_chdir (os_path_join (download_dir g) "xorgxrdp") ;;
  run_command "./bootstrap" true verbose ;;
  run_command "./configure" true verbose ;;
  run_command ("make -j " +:+ str_cpu_count (cpu_count h)) true verbose ;;
  run_command "checkinstall --pkgname=xorgxrdp --default" true verbose ;;
  ret tt.

Definition enable_service (verbose : bool) : M unit :=
  emit (Call "enable_service") ;;
  run_command "systemctl daemon-reload" true verbose ;;
  run_command "systemctl enable xrdp.service" true verbose ;;
  run_command "systemctl enable xrdp-sesman.service" true verbose ;;
  run_command "systemctl start xrdp" true verbose ;;
  ret tt.

Definition install_common (verbose : bool) : M unit :=
  emit (Call "install_common") ;;
  g <- get_glob ;;
  (if str_in "GNOME" (DesktopVer g)
   then run_command "apt-get install gnome-tweaks -y" true verbose ;; ret tt
   else ret tt) ;;
  run_command "sed -i 's/allowed_users=console/allowed_users=anybody/' /etc/X11/Xwrapper.config || echo 'allowed_users=anybody' > /etc/X11/Xwrapper.config" true verbose ;;
  ret tt.

Definition enable_sound (args : Args) (verbose : bool) : M unit :=
  emit (Call "enable_sound") ;;
  snd_server <- subprocess_getoutput "pactl info | grep 'Server Name' | cut -d: -f2" ;;
  if str_in "PipeWire" snd_server then
    run_command "apt install -y git pkg-config autotools-dev libtool make gcc libpipewire-0.3-dev libspa-0.2-dev" true verbose ;;
    g <- get_glob ;;
    os_chdir (download_dir g) ;;
    run_command "git clone https://github.com/neutrinolabs/pipewire-module-xrdp.git --recursive" false verbose ;;
    os_chdir (os_path_join (download_dir g) "pipewire-module-xrdp") ;;
    run_command "./bootstrap" false verbose ;;
    run_command "./configure" false verbose ;;
    run_command "make" false verbose ;;
    run_command "make install" true verbose ;;
    ret tt
  else ret tt.

Definition remove_xrdp (verbose : bool) : M unit :=
  emit (Call "remove_xrdp") ;;
  run_command "systemctl stop xrdp" true verbose ;;
  run_command "apt-get autoremove xrdp -y" true verbose ;;
  run_command "apt-get purge xrdp -y" true verbose ;;
  ret tt.

(** The body of the [try] block of [main]. *)
Definition main_body (args : Args) : M unit :=
  (if (geteuid h =? 0)%Z
   then raise (SetupError "Script must not run with sudo")
   else ret tt) ;;
  display_banner ;;
  check_previous_runs (verbose args) ;;
  detect_desktop_environment (verbose args) ;;
  check_os (verbose args) ;;
  check_hwe (verbose args) ;;
  if remove args then
    remove_xrdp (verbose args)
  else
    (if cuda args then install_cuda (verbose args) else ret tt) ;;
    prep_os (verbose args) ;;
    (if custom args then
       g <- get_glob ;;
       if negb (modetype g =? "standard") then
         install_prereqs (verbose args) ;;
         get_binaries args (verbose args) ;;
         compile_source (verbose args) ;;
         enable_service (verbose args) ;;
         install_common (verbose args) ;;
         verbose_global <- load_name "verbose" ;;
         run_command ("bash -c 'echo custom > " +:+ log_file +:+ "'") true
                     (py_truthy verbose_global) ;;
         ret tt
       else ret tt
     else
       g <- get_glob ;;
       if negb (modetype g =? "custom") then
         install_xrdp (verbose args) ;;
         install_common (verbose args) ;;
         verbose_global <- load_name "verbose" ;;
         run_command ("bash -c 'echo standard > " +:+ log_file +:+ "'") true
                     (py_truthy verbose_global) ;;
         ret tt
       else ret tt) ;;
    if sound args then enable_sound args (verbose args) else ret tt.

Definition main (args : Args) : M unit :=
  try_except (main_body args)
    (fun e =>
       match e with
       | SetupError _ =>
           print_colored ("Setup failed: " +:+ str_exn e) "red" ;;
           raise (SystemExit 1)
       | _ => raise e
       end).

(** Module initialisation: the five probes that bind the globals, and the
    initial values of the others. *)
Definition module_init : M unit :=
  v <- subprocess_getoutput "lsb_release -sd" ;;
  c <- subprocess_getoutput "lsb_release -sc" ;;
  r <- subprocess_getoutput "lsb_release -sr" ;;
  u <- subprocess_getoutput "cat /etc/os-release | grep UBUNTU_CODENAME | cut -d'=' -f2" ;;
  d <- subprocess_getoutput "xdg-user-dir DOWNLOAD" ;;
  set_glob (fun _ => mkGlobals v c r u d "unknown" "" "" "" "" "").

(** The whole file, run as [__main__] with already parsed flags. *)
Definition script (args : Args) : M unit :=
  module_init ;;
  main args.

End Script.

Definition empty_globals : Globals := mkGlobals "" "" "" "" "" "" "" "" "" "" "".

(** A process started on host [h], with [G0] pre-bound, on a machine whose
    marker file holds [f]. *)
Definition start (f : option string) : World := mkWorld f empty_globals [].

Definition run (h : Host) (G0 : gmap string PyVal) (args : Args)
    (f : option string) : result unit * World :=
  script h G0 args (start f).

(** Exit status of the process: 0 when [main] returns, the code of
    [sys.exit], 1 with a traceback for any other exception. *)
Definition exit_status {A} (r : result A) : Z :=
  match r with
  | Ok _ => 0
  | Raise (SystemExit code) => code
  | Raise _ => 1
  end.

(** ** Observations on traces *)

Definition execs (tr : list event) : list string :=
  flat_map (fun e => match e with Exec c _ => [c] | _ => [] end) tr.

Definition probes (tr : list event) : list string :=
  flat_map (fun e => match e with Probe c => [c] | _ => [] end) tr.

Definition calls (tr : list event) : list string :=
  flat_map (fun e => match e with Call f => [f] | _ => [] end) tr.

(** The marker file as the dispatched commands leave it. *)
Fixpoint replay (tr : list event) (f : option string) : option string :=
  match tr with
  | [] => f
  | Exec c code :: tr' => replay tr' (shell_effect c code f)
  | _ :: tr' => replay tr' f
  end.

(** ** Assertions on computations *)

(** Outcome-sensitive weakest precondition: [Q] after a normal return,
    [E] after an exception. *)
Definition wp {A} (m : M A) (Q : A -> World -> Prop) (E : exn -> World -> Prop)
    (w : World) : Prop :=
  match m w with
  | (Ok a, w') => Q a w'
  | (Raise e, w') => E e w'
  end.

Definition spec {A} (P : World -> Prop) (m : M A)
    (Q : A -> World -> Prop) (E : exn -> World -> Prop) : Prop :=
  forall w, P w -> wp m Q E w.

(** [I] holds after [m] however it ends. *)
Definition inv {A} (I : World -> Prop) (m : M A) : Prop :=
  spec I m (fun _ => I) (fun _ => I).

(** A policy says which functions may be entered and which command
    lines may be dispatched; every other event is allowed. *)
Definition allows (ok_call ok_exec : string -> bool) (e : event) : bool :=
  match e with
  | Call f => ok_call f
  | Exec c _ => ok_exec c
  | _ => true
  end.

(** Since the world [w0], the process has produced only events the policy
    allows, the marker file is what the dispatched commands made of it, and
    [modetype] has the value [mt] when one is given. *)
Definition Inv (ok_call ok_exec : string -> bool) (mt : option string)
    (w0 w : World) : Prop :=
  (exists d, trace w = (trace w0 ++ d)%list /\
             forallb (allows ok_call ok_exec) d = true /\
             state_file w = replay d (state_file w0)) /\
  match mt with
  | Some m => modetype (glob w) = m
  | None => True
  end.

Definition mem (x : string) (l : list string) : bool := existsb (String.eqb x) l.

Definition is_marker (c : string) : bool :=
  (c =? marker_command "custom") || (c =? marker_command "standard").

(** The functions of the two install branches of [main]. *)
Definition custom_branch : list string :=
  ["install_prereqs"; "get_binaries"; "compile_source"; "enable_service"].

Definition standard_branch : list string := ["install_xrdp"].

Definition main_mode : list string :=
  (custom_branch ++ standard_branch ++ ["install_common"])%list.

Definition removal_actions : list string :=
  ["sudo systemctl stop xrdp"; "sudo apt-get autoremove xrdp -y";
   "sudo apt-get purge xrdp -y"].

Definition module_probes : list string :=
  ["lsb_release -sd"; "lsb_release -sc"; "lsb_release -sr";
   "cat /etc/os-release | grep UBUNTU_CODENAME | cut -d'=' -f2";
   "xdg-user-dir DOWNLOAD"].

(** The three values of the spec's RunState. *)
Inductive RunState := Absent | Standard | Custom.

Definition run_state (mode : string) : RunState :=
  if mode =? "standard" then Standard
  else if mode =? "custom" then Custom
  else Absent.


(** Some function of [fns] was entered. *)
Definition entered (fns : list string) (tr : list event) : bool :=
  existsb (fun f => mem f fns) (calls tr).

(** Policy of a run with [custom] set: nothing of the standard branch. *)
Definition custom_policy_call (f : string) : bool := negb (mem f standard_branch).
Definition custom_policy_exec (c : string) : bool :=
  negb (c =? "sudo apt-get install xrdp -y") && negb (c =? marker_command "standard").

(** Policy of a run with [custom] unset: nothing of the custom branch. *)
Definition standard_policy_call (f : string) : bool := negb (mem f custom_branch).
Definition standard_policy_exec (c : string) : bool :=
  negb (c =? marker_command "custom").

(** Policy of a run with [remove] set: the three removal commands and
    no install, CUDA, preparation, fix-up or sound function. *)
Definition remove_policy_call (f : string) : bool :=
  negb (mem f (main_mode ++ ["install_cuda"; "prep_os"; "enable_sound"])%list).
Definition remove_policy_exec (c : string) : bool := mem c removal_actions.

(** The functions [main] calls before it looks at the flags. *)
Definition startup_steps : list string :=
  ["display_banner"; "check_previous_runs"; "detect_desktop_environment";
   "check_os"; "check_hwe"].

(** Policy of a run that leaves the main mode alone: besides the startup,
    the removal and the OS preparation, only the CUDA and sound steps when
    flagged; no marker command. *)
Definition idle_policy_call (args : Args) (f : string) : bool :=
  mem f startup_steps || (f =? "remove_xrdp") || (f =? "prep_os")
  || ((f =? "install_cuda") && cuda args)
  || ((f =? "enable_sound") && sound args).
Definition idle_policy_exec (c : string) : bool := negb (is_marker c).

(** ** Concrete hosts and namespaces *)

Definition ok_process : CompletedProcess := mkCompleted 0 "" "".

(** A desktop machine on which every command succeeds; [distro] is what
    [lsb_release -sd] prints and [uid] the effective user id. *)
Definition host_of (distro : string) (uid : Z) : Host :=
  mkHost uid "./xrdp-installer.py" (fun _ => None)
    (fun _ cmd =>
       if cmd =? "lsb_release -sd" then distro
       else if cmd =? "xdg-user-dir DOWNLOAD" then "/home/user/Downloads"
       else "")
    (fun _ _ => ok_process) (fun _ _ => false) (fun _ _ => true) (fun _ _ => true)
    (Some 4%nat) "/home/user" (fun _ => "/tmp/tmpab12cd") (fun _ => true).

Definition ubuntu_host : Z -> Host := host_of "Ubuntu 24.04.1 LTS".
Definition fedora_host : Z -> Host := host_of "Fedora Linux 40 (Workstation Edition)".

(** The namespace of [python3 xrdp-installer.py]: nothing pre-bound. *)
Definition plain_globals : gmap string PyVal := ∅.

(** A namespace in which the two names the module reads but never binds
    are already there, as [runpy.run_path(path, init_globals=...)] gives. *)
Definition prebound_globals : gmap string PyVal :=
  <["Release" := PStr "24.04"]> (<["verbose" := PBool false]> ∅).

(** A namespace with [Release] only. *)
Definition release_globals : gmap string PyVal :=
  <["Release" := PStr "24.04"]> ∅.

Definition flags (c r s cu : bool) : Args := mkArgs c r false s false cu false.

(** ** Two statements of the spec, as they are worded *)


(** "Invoking with an elevated effective identity yields the privilege
    error before any external action is executed": no external command at
    all has been run when the process fails. *)
Definition no_command_before_privilege_error : Prop :=
  forall (h : Host) (G0 : gmap string PyVal) (args : Args) (f : option string),
    geteuid h = 0%Z ->
    let w := snd (run h G0 args f) in
    probes (trace w) = [] /\ execs (trace w) = [].

(** ** Further policies *)

(** The command lines the script dispatches without [sudo]. *)
Definition unprivileged (c : string) : bool :=
  String.prefix "wget https://developer.download.nvidia.com/" c
  || String.prefix "git clone https://github.com/" c
  || mem c ["./bootstrap"; "./configure"; "make"].

Definition elevation_policy_exec (c : string) : bool :=
  String.prefix "sudo " c || unprivileged c.

(** ** Shapes of strings *)




(** ** Stopping at the first failure *)

(** A command that came back with status 0, or any other event. *)
Definition exec_ok (e : event) : bool :=
  match e with
  | Exec _ code => (code =? 0)%Z
  | _ => true
  end.

Definition is_exec (e : event) : bool :=
  match e with
  | Exec _ _ => true
  | _ => false
  end.

(** Nothing is dispatched after a command that failed. *)
Fixpoint fail_fast (d : list event) : bool :=
  match d with
  | [] => true
  | e :: d' =>
      if exec_ok e then fail_fast d'
      else forallb (fun e' => negb (is_exec e')) d'
  end.

(** The exceptions that can leave the [try] block of [main]. *)
Definition raisable (e : exn) : bool :=
  match e with
  | SetupError _ => true
  | OSError _ => true
  | NameError name => mem name ["Release"; "verbose"]
  | _ => false
  end.

(** Every command so far succeeded. *)
Definition Clean (w0 w : World) : Prop :=
  exists d, trace w = (trace w0 ++ d)%list /\ forallb exec_ok d = true.

(** The state in which an exception leaves the [try] block: a setup error
    after at most one failed command, the last one; any other exception
    with no failed command at all. *)
Definition Stopped (w0 : World) (e : exn) (w : World) : Prop :=
  exists d, trace w = (trace w0 ++ d)%list /\
            raisable e = true /\
            match e with
            | SetupError _ => fail_fast d = true
            | _ => forallb exec_ok d = true
            end.

(** [I] is kept on a normal return, [E] holds on an exception. *)
Definition keeps {A} (I : World -> Prop) (E : exn -> World -> Prop) (m : M A) : Prop :=
  spec I m (fun _ => I) E.


(** A host like [host_of] on which one command line fails. *)
Definition host_failing (distro : string) (uid : Z) (bad : string) : Host :=
  mkHost uid "./xrdp-installer.py" (fun _ => None)
    (fun _ cmd =>
       if cmd =? "lsb_release -sd" then distro
       else if cmd =? "xdg-user-dir DOWNLOAD" then "/home/user/Downloads"
       else "")
    (fun _ cmd => if cmd =? bad then mkCompleted 100 "" "E: Unable to locate package"
                  else ok_process)
    (fun _ _ => false) (fun _ _ => true) (fun _ _ => true)
    (Some 4%nat) "/home/user" (fun _ => "/tmp/tmpab12cd") (fun _ => true).

(** ** Successful runs *)

(** The mode a process reads at startup from the marker file [f]: the
    first line stripped, or the "unknown" of module initialisation when there
    is no file. *)
Definition startup_mode (f : option string) : string :=
  match f with
  | Some content => strip (readline content)
  | None => "unknown"
  end.

(** The value [detect_desktop_environment] gives [DesktopVer] on host [h]. *)
Definition detected_desktop (h : Host) : string :=
  DesktopVer (glob (snd (detect_desktop_environment h false (start None)))).

(** What the successful command lines [l], in this order, make of the
    marker file. *)
Definition shell_effects (l : list string) (f : option string) : option string :=
  fold_left (fun f c => shell_effect c 0 f) l f.

(** Between [w] and [w'] exactly the command lines [l] were dispatched, in
    this order, and the globals were left alone. *)
Definition Dispatched (l : list string) (w w' : World) : Prop :=
  execs (trace w') = (execs (trace w) ++ l)%list /\
  state_file w' = shell_effects l (state_file w) /\
  glob w' = glob w.

(** The command lines of the steps of [main], as [run_command] hands them
    to the shell. *)
Definition cuda_commands : list string :=
  ["wget https://developer.download.nvidia.com/compute/cuda/repos/ubuntu2204/x86_64/cuda-keyring_1.1-1_all.deb";
   "sudo dpkg -i cuda-keyring_1.1-1_all.deb";
   "sudo apt-get update";
   "sudo apt-get -y install cuda"].

Definition prep_commands (version : string) : list string :=
  ((if str_in "Debian" version
    then ["sudo sed -i 's/deb cdrom:/#deb cdrom:/' /etc/apt/sources.list";
          "sudo apt-get update"]
    else []) ++
   ["sudo apt-get -y install pulseaudio-utils"])%list.

Definition common_commands (desktop : string) : list string :=
  ((if str_in "GNOME" desktop then ["sudo apt-get install gnome-tweaks -y"] else []) ++
   ["sudo sed -i 's/allowed_users=console/allowed_users=anybody/' /etc/X11/Xwrapper.config || echo 'allowed_users=anybody' > /etc/X11/Xwrapper.config"])%list.

Definition prereq_commands (hwe : bool) (Release : string) : list string :=
  ["sudo apt-get -y install git jq xvfb libmp3lame-dev curl libfuse-dev libx11-dev libxfixes-dev libssl-dev libpam0g-dev libtool libjpeg-dev flex bison gettext autoconf libxml-parser-perl xsltproc libxrandr-dev python3-libxml2 nasm pkg-config intltool checkinstall";
   if hwe
   then "sudo apt-get install -y xserver-xorg-dev-hwe-" +:+ Release
        +:+ " xserver-xorg-core-hwe-" +:+ Release
   else "sudo apt-get install -y xserver-xorg-dev xserver-xorg-core"].

Definition cleanup_commands (xrdp xorgxrdp : bool) : list string :=
  ((if xrdp then ["sudo rm -rf xrdp"] else []) ++
   (if xorgxrdp then ["sudo rm -rf xorgxrdp"] else []))%list.

Definition clone_commands (args : Args) : list string :=
  let source :=
    if nexarian args then ("Nexarian", "mainline_merge")
    else ("neutrinolabs", if dev args then "--branch HEAD" else "--branch latest") in
  ["git clone https://github.com/" +:+ fst source +:+ "/xrdp.git " +:+ snd source
   +:+ " xrdp --recursive";
   "git clone https://github.com/" +:+ fst source +:+ "/xorgxrdp.git " +:+ snd source
   +:+ " xorgxrdp --recursive"].

Definition build_commands (h : Host) (package : string) (options : string) : list string :=
  ["sudo ./bootstrap";
   "sudo ./configure" +:+ options;
   "sudo make -j " +:+ str_cpu_count (cpu_count h);
   "sudo checkinstall --pkgname=" +:+ package +:+ " --default"].

Definition compile_commands (h : Host) : list string :=
  (build_commands h "xrdp"
     " --enable-fuse --enable-jpeg --enable-rfxcodec --enable-mp3lame --enable-vsock" ++
   build_commands h "xorgxrdp" "")%list.

Definition service_commands : list string :=
  ["sudo systemctl daemon-reload";
   "sudo systemctl enable xrdp.service";
   "sudo systemctl enable xrdp-sesman.service";
   "sudo systemctl start xrdp"].

Definition sound_commands : list string :=
  ["sudo apt install -y git pkg-config autotools-dev libtool make gcc libpipewire-0.3-dev libspa-0.2-dev";
   "git clone https://github.com/neutrinolabs/pipewire-module-xrdp.git --recursive";
   "./bootstrap"; "./configure"; "make"; "sudo make install"].

(** The command lines of the two install branches of [main]: [desktop] is
    the detected desktop, [hwe] whether the hardware-enablement query
    answered "installed", [xrdp] and [xorgxrdp] whether the source
    directories of an earlier build were found. *)
Definition standard_commands (desktop : string) : list string :=
  (["sudo apt-get install xrdp -y"] ++ common_commands desktop ++
   [marker_command "standard"])%list.

Definition custom_commands (h : Host) (args : Args) (hwe : bool) (Release : string)
    (xrdp xorgxrdp : bool) (desktop : string) : list string :=
  (prereq_commands hwe Release ++ cleanup_commands xrdp xorgxrdp ++
   clone_commands args ++ compile_commands h ++ service_commands ++
   common_commands desktop ++ [marker_command "custom"])%list.

(** The two queries whose answers select commands. *)
Definition hwe_query (Release : string) : string :=
  "dpkg-query -W -f='${Status}' xserver-xorg-core-hwe-" +:+ Release +:+ " 2>/dev/null".

Definition sound_query : string := "pactl info | grep 'Server Name' | cut -d: -f2".

(** ** Reporting a failure *)

(** The line [main] prints for the setup error [msg]. *)
Definition failure_line (msg : string) : string :=
  COLORS "red" +:+ ("Setup failed: " +:+ msg) +:+ COLORS "reset".

(** The setup error [msg] is one the process can raise after the events
    [tr], on a host whose distribution description is [distro]: the message
    of one of the two checks, or that of [run_command] for the command that
    has just failed, with the error output of that command. *)
Definition Reported (h : Host) (distro msg : string) (tr : list event) : Prop :=
  msg = "Script must not run with sudo" \/
  msg = "Unsupported OS: " +:+ distro \/
  exists tr1 c,
    tr = (tr1 ++ [Exec c (returncode (subprocess_run h tr1 c))])%list /\
    returncode (subprocess_run h tr1 c) <> 0%Z /\
    msg = "Command failed: " +:+ c +:+ nl +:+ "Error: "
          +:+ stderr (subprocess_run h tr1 c).

(** The distribution description is the one read at module
    initialisation. *)
Definition Described (distro : string) (w : World) : Prop :=
  version (glob w) = distro.

(** A setup error is raised only as [Reported] says. *)
Definition Explained (h : Host) (distro : string) (e : exn) (w : World) : Prop :=
  match e with
  | SetupError msg => Reported h distro msg (trace w)
  | _ => True
  end.

(** A host like [host_of] whose sound server is PipeWire and on which one
    command line fails. *)
Definition host_with_pipewire (distro : string) (uid : Z) (bad : string) : Host :=
  mkHost uid "./xrdp-installer.py" (fun _ => None)
    (fun _ cmd =>
       if cmd =? "lsb_release -sd" then distro
       else if cmd =? "xdg-user-dir DOWNLOAD" then "/home/user/Downloads"
       else if cmd =? sound_query then " PulseAudio (on PipeWire 1.0.5)"
       else "")
    (fun _ cmd => if cmd =? bad then mkCompleted 2 "" "make: *** No rule to make target"
                  else ok_process)
    (fun _ _ => false) (fun _ _ => true) (fun _ _ => true)
    (Some 4%nat) "/home/user" (fun _ => "/tmp/tmpab12cd") (fun _ => true).

(** ** The facts probed at import *)

(** The five globals bound from probes when the module is loaded. *)
Definition host_facts (g : Globals) : list string :=
  [version g; codename g; release g; ucodename g; download_dir g].

(** The answers of the host to those probes, each asked after the ones
    before it. *)
Definition probed_facts (h : Host) : list string :=
  host_facts (glob (snd (module_init h (start None)))).

(** ** What the process asks and what it announces *)

(** Since [w0] the process has produced only events that satisfy [p]. *)
Definition Only (p : event -> bool) (w0 w : World) : Prop :=
  exists d, trace w = (trace w0 ++ d)%list /\ forallb p d = true.

(** The probes of a run: the five of the import, the two package queries
    of [check_hwe], and the sound-server query when sound is flagged and
    removal is not. *)
Definition probe_policy (G0 : gmap string PyVal) (args : Args) (e : event) : bool :=
  match e with
  | Probe cmd =>
      mem cmd module_probes
      || (cmd =? "dpkg-query -W -f='${Status}' xserver-xorg-core 2>/dev/null")
      || match G0 !! "Release" with
         | Some Release => cmd =? hwe_query (py_str Release)
         | None => false
         end
      || (sound args && negb (remove args) && (cmd =? sound_query))
  | _ => true
  end.

(** The line with which [run_command] announces a command line. *)
Definition announce (full_command : string) : string :=
  COLORS "yellow" +:+ ("Executing: " +:+ full_command) +:+ COLORS "reset".

(** Every command line is announced by the line printed just before it is
    dispatched; the marker commands, whose verbosity [main] takes from
    another name, are exempt. *)
Fixpoint announced (d : list event) : bool :=
  match d with
  | [] => true
  | Exec c _ :: d' => is_marker c && announced d'
  | Print text :: d' =>
      match d' with
      | Exec c _ :: d'' => ((text =? announce c) || is_marker c) && announced d''
      | _ => announced d'
      end
  | _ :: d' => announced d'
  end.

Definition Announced (w0 w : World) : Prop :=
  exists d, trace w = (trace w0 ++ d)%list /\ announced d = true.

(** * Proofs *)

(** ** Rules for [spec] and [inv] *)

Lemma spec_ret {A} (P : World -> Prop) (a : A) Q E :
  (forall w, P w -> Q a w) -> spec P (ret a) Q E.
Proof. intros H w Hw. exact (H w Hw). Qed.

Lemma spec_raise {A} (P : World -> Prop) (e : exn) (Q : A -> World -> Prop) E :
  (forall w, P w -> E e w) -> spec P (raise e) Q E.
Proof. intros H w Hw. exact (H w Hw). Qed.

Lemma spec_bind {A B} (P : World -> Prop) (m : M A) (f : A -> M B) Q' Q E :
  spec P m Q' E ->
  (forall a, spec (Q' a) (f a) Q E) ->
  spec P (bind m f) Q E.
Proof.
  intros Hm Hf w Hw. specialize (Hm w Hw).
  unfold wp, bind in *. destruct (m w) as [[a|e] w']; [|exact Hm].
  exact (Hf a w' Hm).
Qed.

Lemma spec_try {A} (P : World -> Prop) (m : M A) handler Q E' E :
  spec P m Q E' ->
  (forall e, spec (E' e) (handler e) Q E) ->
  spec P (try_except m handler) Q E.
Proof.
  intros Hm Hh w Hw. specialize (Hm w Hw).
  unfold wp, try_except in *. destruct (m w) as [[a|e] w']; [exact Hm|].
  exact (Hh e w' Hm).
Qed.

Lemma spec_weaken {A} (P P' : World -> Prop) (m : M A) (Q Q' : A -> World -> Prop)
    (E E' : exn -> World -> Prop) :
  spec P m Q E ->
  (forall w, P' w -> P w) ->
  (forall a w, Q a w -> Q' a w) ->
  (forall e w, E e w -> E' e w) ->
  spec P' m Q' E'.
Proof.
  intros Hm HP HQ HE w Hw. specialize (Hm w (HP w Hw)).
  unfold wp in *. destruct (m w) as [[a|e] w']; auto.
Qed.

Lemma inv_spec {A} (I : World -> Prop) (m : M A) w :
  inv I m -> I w -> I (snd (m w)).
Proof.
  intros Hm Hw. specialize (Hm w Hw). unfold wp in Hm.
  destruct (m w) as [[a|e] w']; exact Hm.
Qed.

Section InvariantRules.

Context {I : World -> Prop}.

Lemma inv_ret {A} (a : A) : inv I (ret a).
Proof. apply spec_ret. auto. Qed.

Lemma inv_raise {A} (e : exn) : inv I (@raise A e).
Proof. apply spec_raise. auto. Qed.

Lemma inv_bind {A B} (m : M A) (f : A -> M B) :
  inv I m -> (forall a, inv I (f a)) -> inv I (bind m f).
Proof. intros Hm Hf. eapply spec_bind; [exact Hm|exact Hf]. Qed.

Lemma inv_try {A} (m : M A) handler :
  inv I m -> (forall e, inv I (handler e)) -> inv I (try_except m handler).
Proof. intros Hm Hh. eapply spec_try; [exact Hm|exact Hh]. Qed.

Lemma inv_when b m : inv I m -> inv I (when b m).
Proof. destruct b; simpl; [auto|intros _; apply inv_ret]. Qed.

Lemma inv_for_each {A} (l : list A) body :
  (forall a, inv I (body a)) -> inv I (for_each l body).
Proof.
  intros Hb. induction l as [|x l IH]; simpl.
  - apply inv_ret.
  - apply inv_bind; [apply Hb|intros _; exact IH].
Qed.

(** A computation that leaves the world as it is. *)
Lemma inv_pure {A} (m : M A) : (forall w, snd (m w) = w) -> inv I m.
Proof.
  intros H w Hw. unfold wp. specialize (H w).
  destruct (m w) as [[a|e] w']; simpl in H; subst; exact Hw.
Qed.

End InvariantRules.

(** ** The invariant of a policy *)

Lemma replay_app d1 d2 f : replay (d1 ++ d2)%list f = replay d2 (replay d1 f).
Proof.
  revert f. induction d1 as [|e d1 IH]; intros f; simpl; [reflexivity|].
  destruct e; apply IH.
Qed.

Lemma Inv_refl ok_call ok_exec w : Inv ok_call ok_exec None w w.
Proof.
  split; [|exact Logic.I]. exists []. rewrite app_nil_r. auto.
Qed.

(** One more event. *)
Lemma Inv_event ok_call ok_exec mt w0 w e f' g' :
  allows ok_call ok_exec e = true ->
  f' = replay [e] (state_file w) ->
  modetype g' = modetype (glob w) ->
  Inv ok_call ok_exec mt w0 w ->
  Inv ok_call ok_exec mt w0 (mkWorld f' g' (trace w ++ [e])%list).
Proof.
  intros He Hf Hg [(d & Ht & Hd & Hs) Hm]. split.
  - exists (d ++ [e])%list. simpl. split; [|split].
    + rewrite Ht. rewrite <- app_assoc. reflexivity.
    + rewrite forallb_app, Hd. simpl. rewrite He. reflexivity.
    + rewrite replay_app, <- Hs. exact Hf.
  - destruct mt; simpl; [rewrite Hg; exact Hm|exact Logic.I].
Qed.

(** No event, globals changed with [modetype] kept. *)
Lemma Inv_glob ok_call ok_exec mt w0 w g' :
  modetype g' = modetype (glob w) ->
  Inv ok_call ok_exec mt w0 w ->
  Inv ok_call ok_exec mt w0 (mkWorld (state_file w) g' (trace w)).
Proof.
  intros Hg [Hd Hm]. split; [exact Hd|].
  destruct mt; simpl; [rewrite Hg; exact Hm|exact Logic.I].
Qed.

Section PolicyRules.

Variable h : Host.
Variable G0 : gmap string PyVal.
Variables ok_call ok_exec : string -> bool.
Variable mt : option string.
Variable w0 : World.

Local Abbreviation J := (Inv ok_call ok_exec mt w0).

Lemma inv_call f : ok_call f = true -> inv J (emit (Call f)).
Proof. intros He w Hw. unfold wp, emit. apply Inv_event; auto. Qed.

Lemma inv_print text : inv J (print text).
Proof. intros w Hw. unfold wp, print, emit. apply Inv_event; auto. Qed.

Lemma inv_print_colored text color : inv J (print_colored text color).
Proof. apply inv_print. Qed.

Lemma inv_getoutput cmd : inv J (subprocess_getoutput h cmd).
Proof. intros w Hw. unfold wp, subprocess_getoutput. apply Inv_event; auto. Qed.

Lemma inv_run_check c : ok_exec c = true -> inv J (subprocess_run_check h c).
Proof.
  intros Hc w Hw. unfold wp, subprocess_run_check.
  destruct (returncode (subprocess_run h (trace w) c) =? 0)%Z;
    apply Inv_event; auto.
Qed.

Lemma inv_path_exists path : inv J (os_path_exists h path).
Proof. apply inv_pure. reflexivity. Qed.

Lemma inv_open_readline path : inv J (open_readline path).
Proof.
  apply inv_pure. intros w. unfold open_readline.
  destruct (state_file w); reflexivity.
Qed.

Lemma inv_chdir path : inv J (os_chdir h path).
Proof.
  intros w Hw. unfold wp, os_chdir.
  destruct (chdir_ok h (trace w) path); apply Inv_event; auto.
Qed.

Lemma inv_remove path : inv J (os_remove h path).
Proof.
  intros w Hw. unfold wp, os_remove.
  destruct (remove_ok h (trace w) path); apply Inv_event; auto.
Qed.

Lemma inv_temp_write content : inv J (named_temporary_file_write h content).
Proof.
  intros w Hw. unfold wp, named_temporary_file_write.
  destruct (temp_write_ok h (trace w)); [apply Inv_event; auto|exact Hw].
Qed.

Lemma inv_get_glob : inv J get_glob.
Proof. apply inv_pure. reflexivity. Qed.

Lemma inv_set_glob f :
  (forall g, modetype (f g) = modetype g) -> inv J (set_glob f).
Proof. intros Hf w Hw. unfold wp, set_glob. apply Inv_glob; auto. Qed.

Lemma inv_load_name name : inv J (load_name G0 name).
Proof.
  apply inv_pure. intros w. unfold load_name.
  destruct (G0 !! name); reflexivity.
Qed.

Lemma inv_run_command (command : string) (sudo verbose : bool) :
  ok_exec (if sudo then "sudo " +:+ command else command) = true ->
  inv J (run_command h command sudo verbose).
Proof.
  intros Hc. unfold run_command.
  apply inv_bind; [apply inv_when, inv_print_colored|intros _].
  apply inv_try.
  - apply inv_bind; [apply inv_run_check; exact Hc|intros r].
    apply inv_bind; [apply inv_when, inv_print|intros _; apply inv_ret].
  - intros e. destruct e; apply inv_raise.
Qed.

End PolicyRules.

Lemma inv_set_glob_any ok_call ok_exec w0 f :
  inv (Inv ok_call ok_exec None w0) (set_glob f).
Proof.
  intros w [Hd _]. unfold wp, set_glob. split; [exact Hd|exact Logic.I].
Qed.

(** Walking through a function of the script, one statement at a time. *)
Ltac inv_step :=
  lazymatch goal with
  | |- inv _ (bind _ _) => apply inv_bind; [|intros ?]
  | |- inv _ (ret _) => apply inv_ret
  | |- inv _ (raise _) => apply inv_raise
  | |- inv _ (when _ _) => apply inv_when
  | |- inv _ (for_each _ _) => apply inv_for_each; intros ?
  | |- inv _ (try_except _ _) => apply inv_try; [|intros ?]
  | |- inv _ (emit (Call _)) => apply inv_call; reflexivity
  | |- inv _ (print _) => apply inv_print
  | |- inv _ (print_colored _ _) => apply inv_print_colored
  | |- inv _ (subprocess_getoutput _ _) => apply inv_getoutput
  | |- inv _ (os_path_exists _ _) => apply inv_path_exists
  | |- inv _ (open_readline _) => apply inv_open_readline
  | |- inv _ (os_chdir _ _) => apply inv_chdir
  | |- inv _ (os_remove _ _) => apply inv_remove
  | |- inv _ get_glob => apply inv_get_glob
  | |- inv _ (set_glob _) =>
      first [apply inv_set_glob_any | apply inv_set_glob; intros ?; reflexivity]
  | |- inv _ (load_name _ _) => apply inv_load_name
  | |- inv _ (run_command _ _ _ _) => apply inv_run_command; reflexivity
  | |- inv _ (if ?b then _ else _) => destruct b eqn:?
  | |- inv _ (match ?x with _ => _ end) => destruct x eqn:?
  end.

Ltac inv_walk := repeat inv_step.

Ltac unfold_script :=
  unfold script, module_init, main, main_body, display_banner,
    check_previous_runs, detect_desktop_environment, check_os, check_hwe,
    install_cuda, prep_os, install_xrdp, install_prereqs, get_binaries,
    compile_source, enable_service, install_common, enable_sound, remove_xrdp;
  cbn [custom remove dev sound verbose cuda nexarian].

(** ** Mutual exclusion of the two install branches *)


Lemma script_custom_policy h G0 args w0 :
  custom args = true ->
  inv (Inv custom_policy_call custom_policy_exec None w0) (script h G0 args).
Proof.
  intros Hc. destruct args as [c r d s v cu n]. simpl in Hc. subst c.
  unfold_script. inv_walk.
Qed.

Lemma script_standard_policy h G0 args w0 :
  custom args = false ->
  inv (Inv standard_policy_call standard_policy_exec None w0) (script h G0 args).
Proof.
  intros Hc. destruct args as [c r d s v cu n]. simpl in Hc. subst c.
  unfold_script. inv_walk.
Qed.

(** What a policy kept by the whole script says about a run. *)
Lemma run_policy h G0 args f ok_call ok_exec :
  inv (Inv ok_call ok_exec None (start f)) (script h G0 args) ->
  forallb (allows ok_call ok_exec) (trace (snd (run h G0 args f))) = true /\
  state_file (snd (run h G0 args f)) = replay (trace (snd (run h G0 args f))) f.
Proof.
  intros H. destruct (inv_spec _ _ (start f) H (Inv_refl _ _ _))
    as [(d & Ht & Hd & Hs) _].
  unfold run. simpl in Ht, Hs. rewrite Ht. auto.
Qed.

Lemma policy_calls ok_call ok_exec tr f :
  forallb (allows ok_call ok_exec) tr = true ->
  In f (calls tr) -> ok_call f = true.
Proof.
  induction tr as [|e tr IH]; simpl; [tauto|].
  intros H Hin. apply andb_prop in H as [He Htr].
  destruct e; simpl in Hin; auto.
  destruct Hin as [<-|Hin]; auto.
Qed.

Lemma policy_execs ok_call ok_exec tr c :
  forallb (allows ok_call ok_exec) tr = true ->
  In c (execs tr) -> ok_exec c = true.
Proof.
  induction tr as [|e tr IH]; simpl; [tauto|].
  intros H Hin. apply andb_prop in H as [He Htr].
  destruct e; simpl in Hin; auto.
  destruct Hin as [<-|Hin]; auto.
Qed.

Lemma entered_In fns tr :
  entered fns tr = true -> exists f, In f (calls tr) /\ mem f fns = true.
Proof. unfold entered. intros H. apply existsb_exists in H. exact H. Qed.

(** C2. Whatever marker is on disk and whatever the flags, one run never
    enters a function of the custom-install branch (prerequisites, fetch,
    compile, service enable) and also enters the standard-install branch or
    dispatches its package-manager install command. *)
Theorem branches_mutually_exclusive h G0 args f :
  let tr := trace (snd (run h G0 args f)) in
  ~ (entered custom_branch tr = true /\
     (entered standard_branch tr = true \/
      In "sudo apt-get install xrdp -y" (execs tr))).
Proof.
  intros tr [Hc Hs]. destruct (custom args) eqn:Hflag.
  - destruct (run_policy h G0 args f _ _
                (script_custom_policy h G0 args _ Hflag)) as [Hp _].
    fold tr in Hp. destruct Hs as [Hs|Hs].
    + apply entered_In in Hs as (g & Hin & Hg).
      pose proof (policy_calls _ _ _ _ Hp Hin) as Hok.
      unfold custom_policy_call in Hok. rewrite Hg in Hok. discriminate.
    + pose proof (policy_execs _ _ _ _ Hp Hs) as Hok. discriminate.
  - destruct (run_policy h G0 args f _ _
                (script_standard_policy h G0 args _ Hflag)) as [Hp _].
    fold tr in Hp. apply entered_In in Hc as (g & Hin & Hg).
    pose proof (policy_calls _ _ _ _ Hp Hin) as Hok.
    unfold standard_policy_call in Hok. rewrite Hg in Hok. discriminate.
Qed.

(** ** The marker file is touched by the two marker commands only *)

Lemma shell_effect_other c code f :
  is_marker c = false -> shell_effect c code f = f.
Proof.
  unfold is_marker, shell_effect. intros H.
  apply orb_false_elim in H as [H1 H2]. rewrite H1, H2.
  destruct (code =? 0)%Z; reflexivity.
Qed.

Lemma replay_no_marker ok_call ok_exec d f :
  (forall c, ok_exec c = true -> is_marker c = false) ->
  forallb (allows ok_call ok_exec) d = true ->
  replay d f = f.
Proof.
  intros Hok. induction d as [|e d IH]; simpl; [reflexivity|].
  intros H. apply andb_prop in H as [He Hd].
  destruct e; auto. simpl in He.
  rewrite shell_effect_other by auto. auto.
Qed.

Lemma Inv_forget ok_call ok_exec mt w0 w :
  Inv ok_call ok_exec mt w0 w -> Inv ok_call ok_exec None w0 w.
Proof. intros [Hd _]. split; [exact Hd|exact Logic.I]. Qed.

Lemma Inv_state_file ok_call ok_exec mt w0 w :
  (forall c, ok_exec c = true -> is_marker c = false) ->
  Inv ok_call ok_exec mt w0 w -> state_file w = state_file w0.
Proof.
  intros Hok [(d & _ & Hd & Hs) _]. rewrite Hs.
  eapply replay_no_marker; eauto.
Qed.

Lemma inv_forget {A} ok_call ok_exec mt w0 (m : M A) :
  inv (Inv ok_call ok_exec mt w0) m ->
  spec (Inv ok_call ok_exec mt w0) m
       (fun _ => Inv ok_call ok_exec None w0) (fun _ => Inv ok_call ok_exec None w0).
Proof.
  intros H. eapply spec_weaken; [exact H|auto|..]; intros ? w; apply Inv_forget.
Qed.

(** ** The startup read *)

(** What [check_previous_runs] does, in full. *)
Lemma check_previous_runs_run h verbose w :
  check_previous_runs h verbose w =
  (Ok tt,
   match state_file w with
   | Some content =>
       let mode := strip (readline content) in
       mkWorld (state_file w) (with_modetype mode (glob w))
         (trace w ++ [Call "check_previous_runs"] ++
          (if verbose
           then [Print (COLORS "green" +:+ ("   Previous mode detected: " +:+ mode)
                        +:+ COLORS "reset")]
           else []))%list
   | None =>
       mkWorld (state_file w) (glob w) (trace w ++ [Call "check_previous_runs"])%list
   end).
Proof.
  unfold check_previous_runs, bind, emit, os_path_exists, open_readline,
    set_glob, get_glob, when, print_colored, print, emit, ret.
  simpl. destruct (state_file w) as [content|]; [|reflexivity].
  destruct verbose; simpl; [|reflexivity].
  rewrite <- app_assoc. reflexivity.
Qed.

Lemma check_previous_runs_sets h verbose ok_call ok_exec w0 content :
  (forall c, ok_exec c = true -> is_marker c = false) ->
  ok_call "check_previous_runs" = true ->
  state_file w0 = Some content ->
  spec (Inv ok_call ok_exec None w0) (check_previous_runs h verbose)
       (fun _ => Inv ok_call ok_exec (Some (strip (readline content))) w0)
       (fun _ => Inv ok_call ok_exec None w0).
Proof.
  intros Hok Hcall Hf w Hw. unfold wp. rewrite check_previous_runs_run.
  pose proof (Inv_state_file _ _ _ _ _ Hok Hw) as Hs. rewrite Hf in Hs.
  rewrite Hs. cbv zeta. destruct Hw as [(d & Ht & Hd & Hr) _].
  split; [|reflexivity]. simpl.
  eexists (d ++ _)%list. split; [rewrite Ht, <- app_assoc; reflexivity|].
  split.
  - rewrite forallb_app, Hd. simpl. rewrite Hcall. destruct verbose; reflexivity.
  - rewrite replay_app, <- Hr, Hs. destruct verbose; reflexivity.
Qed.

(** With [modetype] equal to the value it is tested against, the guarded
    branch is skipped. *)
Lemma inv_guard_skip ok_call ok_exec m w0 (a : M unit) :
  inv (Inv ok_call ok_exec (Some m) w0)
      (bind get_glob (fun g => if negb (modetype g =? m) then a else ret tt)).
Proof.
  intros w Hw. unfold wp, bind, get_glob.
  destruct Hw as [Hd Hm]. simpl in Hm. rewrite Hm, String.eqb_refl. simpl.
  split; assumption.
Qed.

Ltac inv_walk_guard :=
  repeat first [apply inv_guard_skip | inv_step].

Lemma mem_In x l : mem x l = true -> In x l.
Proof.
  unfold mem. intros H. apply existsb_exists in H as (y & Hy & Heq).
  apply String.eqb_eq in Heq. subst y. exact Hy.
Qed.

(** ** Removal *)

Lemma script_remove_policy h G0 args w0 :
  remove args = true ->
  inv (Inv remove_policy_call remove_policy_exec None w0) (script h G0 args).
Proof.
  intros Hr. destruct args as [c r d s v cu n]. simpl in Hr. subst r.
  unfold_script. inv_walk.
Qed.

Lemma remove_policy_no_marker c :
  remove_policy_exec c = true -> is_marker c = false.
Proof.
  unfold remove_policy_exec, removal_actions, mem. simpl. intros H.
  repeat (apply orb_prop in H as [H|H];
          [apply String.eqb_eq in H; subst c; reflexivity|]).
  discriminate.
Qed.

(** C10. A run with [remove] set, successful or not, leaves the marker file
    as it found it: the only command lines it dispatches are the service
    stop and the two package removals, none of which writes or deletes the
    marker, so the startup read of any later run sees what it would have
    seen before the removal. *)
Theorem remove_keeps_marker h G0 args f :
  remove args = true ->
  let w := snd (run h G0 args f) in
  state_file w = f /\
  (forall c, In c (execs (trace w)) -> In c removal_actions) /\
  (forall h' verbose g tr,
     check_previous_runs h' verbose (mkWorld (state_file w) g tr) =
     check_previous_runs h' verbose (mkWorld f g tr)).
Proof.
  intros Hr w.
  destruct (run_policy h G0 args f _ _ (script_remove_policy h G0 args _ Hr))
    as [Hp Hs].
  fold w in Hp, Hs.
  assert (Hf : state_file w = f).
  { rewrite Hs. eapply replay_no_marker; [exact remove_policy_no_marker|exact Hp]. }
  split; [exact Hf|]. split.
  - intros c Hc. apply mem_In. exact (policy_execs _ _ _ _ Hp Hc).
  - intros. rewrite Hf. reflexivity.
Qed.

(** ** A run that finds the marker of the other mode *)

Lemma idle_policy_no_marker c : idle_policy_exec c = true -> is_marker c = false.
Proof. unfold idle_policy_exec. intros H. apply negb_true_iff in H. exact H. Qed.


Lemma idle_policy_call_spec args f :
  idle_policy_call args f = true ->
  In f startup_steps \/ f = "remove_xrdp" \/ f = "prep_os" \/
  (f = "install_cuda" /\ cuda args = true) \/
  (f = "enable_sound" /\ sound args = true).
Proof.
  unfold idle_policy_call. intros H.
  apply orb_prop in H as [H|H]; [apply orb_prop in H as [H|H];
    [apply orb_prop in H as [H|H]; [apply orb_prop in H as [H|H]|]|]|].
  - left. apply mem_In. exact H.
  - right. left. apply String.eqb_eq. exact H.
  - right. right. left. apply String.eqb_eq. exact H.
  - apply andb_prop in H as [H1 H2]. apply String.eqb_eq in H1. tauto.
  - apply andb_prop in H as [H1 H2]. apply String.eqb_eq in H1. tauto.
Qed.

Lemma not_mem_main_mode args f :
  idle_policy_call args f = true -> ~ In f main_mode.
Proof.
  intros H Hin. apply idle_policy_call_spec in H.
  assert (Hm : mem f main_mode = true).
  { unfold mem. apply existsb_exists. exists f.
    split; [exact Hin|apply String.eqb_refl]. }
  destruct H as [H|[->|[->|[[-> _]|[-> _]]]]]; try discriminate Hm.
  simpl in H. repeat (destruct H as [<-|H]; [discriminate Hm|]). exact H.
Qed.


(** ** The privilege check *)

Lemma run_as_root h G0 args f :
  geteuid h = 0%Z ->
  exists g,
    run h G0 args f =
    (Raise (SystemExit 1),
     mkWorld f g
       (map Probe module_probes ++
        [Print (COLORS "red" +:+ "Setup failed: Script must not run with sudo"
                +:+ COLORS "reset")])%list).
Proof.
  intros Hroot. eexists.
  unfold run, script, module_init, main, main_body, bind, try_except,
    subprocess_getoutput, set_glob, raise, print_colored, print, emit, start.
  simpl. rewrite Hroot. simpl. reflexivity.
Qed.

(** ** Python strings *)

Example readline_strip_example :
  strip (readline ("  custom " +:+ nl +:+ "rest")) = "custom" /\
  strip (readline ("standard" +:+ nl)) = "standard" /\
  strip (readline "") = "".
Proof. repeat split. Qed.

Example str_in_example :
  str_in "Ubuntu 24.04" "Ubuntu 24.04.1 LTS" = true /\
  str_in "Ubuntu 24.04" "Ubuntu 22.04.4 LTS" = false /\
  str_in "Debian" "Debian GNU/Linux 12 (bookworm)" = true.
Proof. repeat split. Qed.

(** ** The platform check *)

Lemma append_cons c a b : String c a +:+ b = String c (a +:+ b).
Proof. reflexivity. Qed.
Lemma append_nil b : "" +:+ b = b.
Proof. reflexivity. Qed.

Lemma prefix_spec a s :
  String.prefix a s = true <-> exists post, s = a +:+ post.
Proof.
  revert s. induction a as [|c a IH]; intros s; simpl.
  - split; [intros _; exists s; reflexivity|destruct s; reflexivity].
  - destruct s as [|c' s]; simpl.
    + split; [discriminate|intros [post H]; discriminate].
    + destruct (Ascii.ascii_dec c c') as [->|Hne].
      * rewrite IH. split; intros [post H]; exists post;
          rewrite append_cons in *; congruence.
      * split; [discriminate|intros [post H]; rewrite append_cons in H; congruence].
Qed.

Lemma str_in_nil sub : str_in sub "" = String.prefix sub "" || false.
Proof. reflexivity. Qed.

Lemma str_in_cons sub c s :
  str_in sub (String c s) = String.prefix sub (String c s) || str_in sub s.
Proof. reflexivity. Qed.

(** [str_in] is containment as a contiguous substring. *)
Lemma str_in_spec sub s :
  str_in sub s = true <-> exists pre post, s = pre +:+ sub +:+ post.
Proof.
  induction s as [|c s IH].
  - rewrite str_in_nil, orb_false_r, prefix_spec. split.
    + intros [post H]. exists "", post. exact H.
    + intros (pre & post & H). destruct pre; [exists post; exact H|discriminate].
  - rewrite str_in_cons, orb_true_iff, IH, prefix_spec. split.
    + intros [[post H]|(pre & post & H)].
      * exists "", post. exact H.
      * exists (String c pre), post. rewrite append_cons. congruence.
    + intros (pre & post & H). destruct pre as [|c' pre].
      * left. exists post. exact H.
      * right. exists pre, post. rewrite append_cons in H. congruence.
Qed.

Lemma check_os_run verbose w :
  check_os verbose w =
  (if existsb (fun v => str_in v (version (glob w))) supported
   then Ok tt
   else Raise (SetupError ("Unsupported OS: " +:+ version (glob w))),
   mkWorld (state_file w) (glob w) (trace w ++ [Call "check_os"])%list).
Proof.
  unfold check_os, bind, emit, get_glob, raise, ret. simpl.
  destruct (str_in "Ubuntu 24.04" (version (glob w)));
    [reflexivity|destruct (str_in "Debian" (version (glob w))); reflexivity].
Qed.

Lemma run_unsupported h G0 args f :
  geteuid h <> 0%Z ->
  existsb (fun v => str_in v (getoutput h [] "lsb_release -sd")) supported = false ->
  exists g tr,
    run h G0 args f = (Raise (SystemExit 1), mkWorld f g tr) /\
    execs tr = [] /\ probes tr = module_probes /\
    In (Print (COLORS "red" +:+ "Setup failed: Unsupported OS: "
               +:+ getoutput h [] "lsb_release -sd" +:+ COLORS "reset")) tr.
Proof.
  intros Hu Hos. apply Z.eqb_neq in Hu.
  unfold run, script, module_init, main, main_body.
  unfold bind at 1 2 3 4 5 6. unfold subprocess_getoutput at 1 2 3 4 5.
  unfold set_glob at 1. unfold start. cbn [trace state_file glob app].
  unfold try_except. unfold bind at 1. rewrite Hu. unfold ret at 1.
  unfold bind at 1. unfold display_banner, print_colored, print, emit, bind.
  cbn [trace state_file glob app].
  rewrite check_previous_runs_run. cbn [trace state_file glob].
  unfold detect_desktop_environment, bind, emit, set_glob.
  cbn [trace state_file glob].
  destruct f as [content|];
    (destruct (match environ h "XDG_SESSION_TYPE" with
               | Some v => v =? "tty" | None => false end);
     rewrite check_os_run; cbn [trace state_file glob version with_desktop with_modetype];
     rewrite Hos; destruct (verbose args); cbn [trace state_file glob app];
     do 2 eexists; (split; [reflexivity|]);
     (split; [reflexivity|split; [reflexivity|]]);
     cbn [In]; repeat (first [left; reflexivity | right])).
Qed.

(** C7. [check_os] raises the unsupported-platform error exactly when the
    distro string contains neither "Ubuntu 24.04" nor "Debian", and returns
    normally exactly when it contains one of them; it changes neither the
    marker file nor the globals and runs no command.  On a host whose distro
    string contains neither, a run by a non-root user ends with exit status 1
    without having dispatched any command and with the marker file
    untouched. *)
Theorem unsupported_platform_check h G0 args f verbose w :
  let r := check_os verbose w in
  (fst r = Raise (SetupError ("Unsupported OS: " +:+ version (glob w))) <->
   forall s, In s supported ->
             ~ exists pre post, version (glob w) = pre +:+ s +:+ post) /\
  (fst r = Ok tt <->
   exists s, In s supported /\
             exists pre post, version (glob w) = pre +:+ s +:+ post) /\
  state_file (snd r) = state_file w /\ glob (snd r) = glob w /\
  execs (trace (snd r)) = execs (trace w) /\
  probes (trace (snd r)) = probes (trace w) /\
  (geteuid h <> 0%Z ->
   existsb (fun v => str_in v (getoutput h [] "lsb_release -sd")) supported = false ->
   fst (run h G0 args f) = Raise (SystemExit 1) /\
   exit_status (fst (run h G0 args f)) = 1%Z /\
   execs (trace (snd (run h G0 args f))) = [] /\
   state_file (snd (run h G0 args f)) = f).
Proof.
  intros r. subst r. rewrite check_os_run. cbn [fst snd state_file glob trace].
  assert (Hex : existsb (fun v => str_in v (version (glob w))) supported = true <->
                exists s, In s supported /\
                          exists pre post, version (glob w) = pre +:+ s +:+ post).
  { rewrite existsb_exists. split; intros (s & Hs & H); exists s; split; auto;
      apply str_in_spec; exact H. }
  split; [|split; [|split; [|split; [|split; [|split]]]]].
  - destruct (existsb _ supported) eqn:Hb.
    + split; [discriminate|]. intros Hno.
      destruct (proj1 Hex eq_refl) as (s & Hs & H). destruct (Hno s Hs H).
    + split; [|reflexivity]. intros _ s Hs H.
      assert (false = true) by (apply Hex; eauto).
      discriminate.
  - destruct (existsb _ supported) eqn:Hb.
    + split; [intros _; apply Hex; reflexivity|reflexivity].
    + split; [discriminate|]. intros H. apply Hex in H. discriminate.
  - reflexivity.
  - reflexivity.
  - unfold execs. rewrite flat_map_app. simpl. apply app_nil_r.
  - unfold probes. rewrite flat_map_app. simpl. apply app_nil_r.
  - intros Hu Hos.
    destruct (run_unsupported h G0 args f Hu Hos) as (g & tr & Hrun & He & _ & _).
    rewrite Hrun. simpl. auto.
Qed.

Lemma unsupported_platform_check_witness :
  geteuid (fedora_host 1000) <> 0%Z /\
  existsb (fun v => str_in v (getoutput (fedora_host 1000) [] "lsb_release -sd"))
          supported = false /\
  fst (run (fedora_host 1000) plain_globals (flags false false false false) None)
  = Raise (SystemExit 1) /\
  execs (trace (snd (run (fedora_host 1000) plain_globals
                         (flags false false false false) None))) = [].
Proof.
  split; [discriminate|]. split; [reflexivity|].
  pose proof (unsupported_platform_check (fedora_host 1000) plain_globals
                (flags false false false false) None false (start None)) as H.
  destruct H as (_ & _ & _ & _ & _ & _ & H).
  destruct H as (H1 & _ & H2 & _); [discriminate|reflexivity|].
  split; [exact H1|exact H2].
Defined.

(** ** The command executor *)


(** ** The privilege check, as a claim *)

(** The worded statement fails: the five probes of module initialisation
    have run before [main] looks at the effective user id. *)
Lemma privilege_error_after_probes : ~ no_command_before_privilege_error.
Proof.
  intros H.
  destruct (H (ubuntu_host 0) plain_globals (flags false false false false) None
              eq_refl) as [Hp _].
  vm_compute in Hp. discriminate Hp.
Qed.

(** C4. Started with effective user id 0, whatever the flags, the process
    ends with exit status 1 on the setup error "Script must not run with
    sudo"; by then no function of the script has been entered, no command
    has gone through [run_command] and the marker file is untouched; the
    only external commands run are the five read-only probes of module
    initialisation. *)
Theorem privilege_check_first h G0 args f :
  geteuid h = 0%Z ->
  let w := snd (run h G0 args f) in
  fst (run h G0 args f) = Raise (SystemExit 1) /\
  exit_status (fst (run h G0 args f)) = 1%Z /\
  execs (trace w) = [] /\
  calls (trace w) = [] /\
  probes (trace w) = module_probes /\
  state_file w = f /\
  In (Print (COLORS "red" +:+ "Setup failed: Script must not run with sudo"
             +:+ COLORS "reset")) (trace w).
Proof.
  intros Hroot w. subst w.
  destruct (run_as_root h G0 args f Hroot) as [g Hrun]. rewrite Hrun.
  cbn [fst snd trace state_file exit_status].
  repeat split; try reflexivity.
  apply in_or_app. right. left. reflexivity.
Qed.

Lemma privilege_check_first_witness :
  geteuid (ubuntu_host 0) = 0%Z /\
  fst (run (ubuntu_host 0) plain_globals (flags true true true true) None)
  = Raise (SystemExit 1) /\
  execs (trace (snd (run (ubuntu_host 0) plain_globals
                         (flags true true true true) None))) = [].
Proof.
  split; [reflexivity|].
  destruct (privilege_check_first (ubuntu_host 0) plain_globals
              (flags true true true true) None eq_refl)
    as (H1 & _ & H2 & _).
  split; [exact H1|exact H2].
Defined.

(** ** Re-running in custom mode *)




(** ** The unbound name in [check_hwe] *)

(** When [Release] is not bound, every run that passes the privilege and
    platform checks stops in [check_hwe] with a [NameError], before
    [main] has tested a single flag. *)
Lemma run_stops_in_check_hwe h G0 args f :
  G0 !! "Release" = None ->
  geteuid h <> 0%Z ->
  existsb (fun v => str_in v (getoutput h [] "lsb_release -sd")) supported = true ->
  exists g tr,
    run h G0 args f = (Raise (NameError "Release"), mkWorld f g tr) /\
    execs tr = [] /\
    calls tr = ["display_banner"; "check_previous_runs";
                "detect_desktop_environment"; "check_os"; "check_hwe"].
Proof.
  intros HG Hu Hos. apply Z.eqb_neq in Hu.
  unfold run, script, module_init, main, main_body.
  unfold bind at 1 2 3 4 5 6. unfold subprocess_getoutput at 1 2 3 4 5.
  unfold set_glob at 1. unfold start. cbn [trace state_file glob app].
  unfold try_except. unfold bind at 1. rewrite Hu. unfold ret at 1.
  unfold bind at 1. unfold display_banner, print_colored, print, emit.
  unfold bind at 1 2 3 4 5 6. cbn [trace state_file glob app].
  unfold bind at 1. rewrite check_previous_runs_run. cbn [trace state_file glob].
  unfold bind at 1. unfold detect_desktop_environment, emit, set_glob.
  unfold bind at 1.
  cbn [trace state_file glob].
  destruct f as [content|];
    (destruct (match environ h "XDG_SESSION_TYPE" with
               | Some v => v =? "tty" | None => false end);
     unfold bind at 1;
     rewrite check_os_run; cbn [trace state_file glob version with_desktop with_modetype];
     rewrite Hos;
     unfold bind at 1; unfold check_hwe, emit, subprocess_getoutput, load_name;
     unfold bind at 1 2 3; cbn [trace state_file glob];
     rewrite HG; unfold raise;
     destruct (verbose args); cbn [trace state_file glob app];
     do 2 eexists; (split; [reflexivity|]);
     (split; reflexivity)).
Qed.

(** ** Removal is never reached *)

(** C3, on the code.  Started as [python3 xrdp-installer.py] with [remove]
    set by a non-root user on a supported distro, the process does not
    dispatch the three removal commands: it dispatches no command at all
    and dies in [check_hwe] on the unbound name [Release], exit status 1. *)
Theorem remove_run_stops_before_removal h args f :
  remove args = true ->
  geteuid h <> 0%Z ->
  existsb (fun v => str_in v (getoutput h [] "lsb_release -sd")) supported = true ->
  let out := run h plain_globals args f in
  fst out = Raise (NameError "Release") /\
  exit_status (fst out) = 1%Z /\
  execs (trace (snd out)) = [] /\
  ~ In "remove_xrdp" (calls (trace (snd out))).
Proof.
  intros _ Hu Hos out. subst out.
  destruct (run_stops_in_check_hwe h plain_globals args f eq_refl Hu Hos)
    as (g & tr & Hrun & He & Hc).
  rewrite Hrun. cbn [fst snd trace exit_status]. rewrite He, Hc.
  repeat split. simpl. intros H.
  repeat (destruct H as [H|H]; [discriminate H|]). exact H.
Qed.

Lemma remove_run_stops_before_removal_witness :
  remove (flags true true false true) = true /\
  geteuid (ubuntu_host 1000) <> 0%Z /\
  fst (run (ubuntu_host 1000) plain_globals (flags true true false true) None)
  = Raise (NameError "Release") /\
  execs (trace (snd (run (ubuntu_host 1000) plain_globals
                         (flags true true false true) None))) = [].
Proof.
  split; [reflexivity|]. split; [discriminate|].
  destruct (remove_run_stops_before_removal (ubuntu_host 1000)
              (flags true true false true) None eq_refl)
    as (H1 & _ & H2 & _); [discriminate|reflexivity|].
  split; [exact H1|exact H2].
Defined.

(** With [Release] bound the same flags give what the spec describes:
    the three removal commands and a normal return. *)
Example remove_run_with_release_bound :
  let out := run (ubuntu_host 1000) release_globals (flags true true false true)
                 (Some ("custom" +:+ nl)) in
  fst out = Ok tt /\ execs (trace (snd out)) = removal_actions /\
  state_file (snd out) = Some ("custom" +:+ nl).
Proof. vm_compute. auto. Qed.

(** ** The standard install is never reached *)

(** C5, on the code.  With no flag set and no marker file, on a supported
    distro and as a non-root user, [python3 xrdp-installer.py] dispatches
    neither the package-manager install nor the fix-up and writes no marker:
    it dies in [check_hwe] on the unbound name [Release], exit status 1. *)
Theorem standard_run_stops_before_install h :
  geteuid h <> 0%Z ->
  existsb (fun v => str_in v (getoutput h [] "lsb_release -sd")) supported = true ->
  let out := run h plain_globals (flags false false false false) None in
  fst out = Raise (NameError "Release") /\
  exit_status (fst out) = 1%Z /\
  execs (trace (snd out)) = [] /\
  state_file (snd out) = None.
Proof.
  intros Hu Hos out. subst out.
  destruct (run_stops_in_check_hwe h plain_globals (flags false false false false)
              None eq_refl Hu Hos) as (g & tr & Hrun & He & Hc).
  rewrite Hrun. cbn [fst snd trace state_file exit_status]. rewrite He. auto.
Qed.

Lemma standard_run_stops_before_install_witness :
  geteuid (ubuntu_host 1000) <> 0%Z /\
  fst (run (ubuntu_host 1000) plain_globals (flags false false false false) None)
  = Raise (NameError "Release") /\
  state_file (snd (run (ubuntu_host 1000) plain_globals
                       (flags false false false false) None)) = None.
Proof.
  split; [discriminate|].
  destruct (standard_run_stops_before_install (ubuntu_host 1000))
    as (H1 & _ & _ & H2); [discriminate|reflexivity|].
  split; [exact H1|exact H2].
Defined.

(** With [Release] bound the install and the fix-up are dispatched, and the
    run dies on the second unbound name, [verbose], where [main] builds the
    arguments of the marker command: the marker is not written. *)
Example standard_run_with_release_bound :
  let out := run (ubuntu_host 1000) release_globals (flags false false false false)
                 None in
  fst out = Raise (NameError "verbose") /\
  execs (trace (snd out)) =
    ["sudo apt-get -y install pulseaudio-utils";
     "sudo apt-get install xrdp -y";
     "sudo apt-get install gnome-tweaks -y";
     "sudo sed -i 's/allowed_users=console/allowed_users=anybody/' /etc/X11/Xwrapper.config || echo 'allowed_users=anybody' > /etc/X11/Xwrapper.config"] /\
  state_file (snd out) = None.
Proof. vm_compute. auto. Qed.

(** With both names bound the scenario of the spec is what happens. *)
Example standard_run_with_both_bound :
  let out := run (ubuntu_host 1000) prebound_globals (flags false false false false)
                 None in
  fst out = Ok tt /\
  count_occ string_dec (execs (trace (snd out))) "sudo apt-get install xrdp -y" = 1%nat /\
  In "install_common" (calls (trace (snd out))) /\
  state_file (snd out) = Some ("standard" +:+ nl).
Proof. vm_compute. tauto. Qed.

(** ** The state store *)

Lemma replay_custom_marker ok_call d f :
  forallb (allows ok_call custom_policy_exec) d = true ->
  f = Some ("custom" +:+ nl) \/ In (Exec (marker_command "custom") 0) d ->
  replay d f = Some ("custom" +:+ nl).
Proof.
  revert f. induction d as [|e d IH]; intros f Hp Hin.
  - destruct Hin as [Hf|[]]. exact Hf.
  - simpl in Hp. apply andb_prop in Hp as [He Hd].
    destruct e as [c|c code|fn|t|p|p|p ct];
      try (simpl; apply IH; [exact Hd|];
           destruct Hin as [Hf|[Heq|Hin]]; [left; exact Hf|discriminate Heq|right; exact Hin]).
    simpl in He. unfold custom_policy_exec in He.
    apply andb_prop in He as [_ Hstd]. apply negb_true_iff in Hstd.
    simpl. apply IH; [exact Hd|]. unfold shell_effect. rewrite Hstd.
    destruct (code =? 0)%Z eqn:Hcode.
    + destruct (c =? marker_command "custom") eqn:Hc; [left; reflexivity|].
      destruct Hin as [Hf|[Heq|Hin]]; [left; exact Hf| |right; exact Hin].
      injection Heq as -> _. rewrite String.eqb_refl in Hc. discriminate.
    + destruct Hin as [Hf|[Heq|Hin]]; [left; exact Hf| |right; exact Hin].
      injection Heq as _ ->. discriminate.
Qed.

(** A run in which the custom marker command succeeded leaves the marker
    file with the line "custom". *)
Lemma persisted_custom h G0 args f :
  In (Exec (marker_command "custom") 0) (trace (snd (run h G0 args f))) ->
  state_file (snd (run h G0 args f)) = Some ("custom" +:+ nl).
Proof.
  intros Hin. destruct (custom args) eqn:Hflag.
  - destruct (run_policy h G0 args f _ _ (script_custom_policy h G0 args _ Hflag))
      as [Hp Hs].
    rewrite Hs. eapply replay_custom_marker; [exact Hp|right; exact Hin].
  - destruct (run_policy h G0 args f _ _ (script_standard_policy h G0 args _ Hflag))
      as [Hp _].
    assert (Hex : In (marker_command "custom")
                     (execs (trace (snd (run h G0 args f))))).
    { unfold execs. apply in_flat_map. eexists. split; [exact Hin|left; reflexivity]. }
    pose proof (policy_execs _ _ _ _ Hp Hex) as Hok. discriminate Hok.
Qed.

(** C6. After a run in which the custom marker command succeeded, the
    startup read of the next process returns normally with [modetype]
    "custom", the Custom state.  With no marker file the startup read
    returns normally too and leaves the globals alone, so [modetype] keeps
    the value "unknown" that module initialisation gave it, the Absent
    state. *)
Theorem marker_round_trip h G0 args f h' verbose g tr :
  (In (Exec (marker_command "custom") 0) (trace (snd (run h G0 args f))) ->
   let r := check_previous_runs h' verbose
              (mkWorld (state_file (snd (run h G0 args f))) g tr) in
   fst r = Ok tt /\ modetype (glob (snd r)) = "custom" /\
   run_state (modetype (glob (snd r))) = Custom) /\
  (let r := check_previous_runs h' verbose (mkWorld None g tr) in
   fst r = Ok tt /\ glob (snd r) = g) /\
  (let w := snd (module_init h' (start None)) in
   modetype (glob w) = "unknown" /\ run_state (modetype (glob w)) = Absent).
Proof.
  split; [|split].
  - intros Hin r. subst r. rewrite check_previous_runs_run.
    rewrite (persisted_custom h G0 args f Hin).
    cbn [fst snd state_file glob]. auto.
  - intros r. subst r. rewrite check_previous_runs_run. auto.
  - split; reflexivity.
Qed.

Lemma marker_round_trip_witness :
  let w1 := snd (run (ubuntu_host 1000) prebound_globals
                     (flags true false false false) None) in
  In (Exec (marker_command "custom") 0) (trace w1) /\
  let r := check_previous_runs (ubuntu_host 1000) false
             (mkWorld (state_file w1) empty_globals []) in
  fst r = Ok tt /\ modetype (glob (snd r)) = "custom".
Proof.
  assert (Hin : In (Exec (marker_command "custom") 0)
                   (trace (snd (run (ubuntu_host 1000) prebound_globals
                                    (flags true false false false) None)))).
  { vm_compute. tauto. }
  split; [exact Hin|].
  destruct (marker_round_trip (ubuntu_host 1000) prebound_globals
              (flags true false false false) None (ubuntu_host 1000) false
              empty_globals []) as [H _].
  destruct (H Hin) as (H1 & H2 & _). split; [exact H1|exact H2].
Defined.

Lemma remove_keeps_marker_witness :
  remove (flags true true true true) = true /\
  state_file (snd (run (ubuntu_host 1000) release_globals (flags true true true true)
                       (Some ("custom" +:+ nl)))) = Some ("custom" +:+ nl).
Proof.
  split; [reflexivity|].
  destruct (remove_keeps_marker (ubuntu_host 1000) release_globals
              (flags true true true true) (Some ("custom" +:+ nl)) eq_refl)
    as [H _].
  exact H.
Defined.

(** ** The privileged file write *)

(** What [write_file_with_sudo] itself does: it stages the whole content
    in a temporary file first, then dispatches [mv] of that file onto the
    destination and [chmod 644] of the destination, in this order and
    stopping at the first failure; every failure comes back as the setup
    error "Failed to write file".  What the destination holds while [mv]
    runs is the business of [mv]. *)
Lemma write_file_with_sudo_steps h (filepath content : string) (verbose : bool) w :
  let tr0 := if verbose
             then (trace w ++ [Print (COLORS "yellow" +:+ ("Writing to " +:+ filepath)
                                      +:+ COLORS "reset")])%list
             else trace w in
  let temp_path := mktemp h tr0 in
  let out := write_file_with_sudo h filepath content verbose w in
  (exists n,
     execs (trace (snd out)) =
     (execs (trace w) ++
      firstn n ["sudo mv " +:+ temp_path +:+ " " +:+ filepath;
                "sudo chmod 644 " +:+ filepath])%list /\
     (0 < n -> In (TempWrite temp_path content) (trace (snd out)))%nat) /\
  (fst out = Ok tt \/
   exists msg, fst out = Raise (SetupError ("Failed to write file " +:+ filepath
                                            +:+ ": " +:+ msg))).
Proof.
  intros tr0 temp_path out. subst out temp_path tr0.
  unfold write_file_with_sudo, run_command, named_temporary_file_write,
    subprocess_run_check, bind, try_except, when, print_colored, print, emit,
    ret, raise.
  assert (Hx : forall a b, execs (a ++ b)%list = (execs a ++ execs b)%list)
    by (intros; apply flat_map_app).
  destruct verbose; cbn [trace state_file glob andb];
    (destruct (temp_write_ok h _); cbn [trace state_file glob fst snd];
     [|split; [exists 0%nat; split; [rewrite ?Hx; simpl; rewrite ?app_nil_r; reflexivity|lia]
              |right; eexists; reflexivity]]);
    (match goal with
     | |- context [(returncode (subprocess_run h ?t ?c) =? 0)%Z] =>
         destruct (returncode (subprocess_run h t c) =? 0)%Z
     end;
     cbn [trace state_file glob fst snd];
     [|split; [exists 1%nat; split;
               [rewrite ?Hx; simpl; rewrite ?app_nil_r, <- ?app_assoc; reflexivity
               |intros _; rewrite !in_app_iff; simpl; tauto]
              |right; eexists; reflexivity]]);
    try (destruct (negb (stdout _ =? "")); cbn [trace state_file glob fst snd]);
    (match goal with
     | |- context [(returncode (subprocess_run h ?t ?c) =? 0)%Z] =>
         destruct (returncode (subprocess_run h t c) =? 0)%Z
     end;
     cbn [trace state_file glob fst snd];
     try (destruct (negb (stdout _ =? "")); cbn [trace state_file glob fst snd]));
    (split; [exists 2%nat; split;
             [rewrite ?Hx; simpl; rewrite ?app_nil_r, <- ?app_assoc; reflexivity
             |intros _; rewrite !in_app_iff; simpl; tauto]
            |first [left; reflexivity|right; eexists; reflexivity]]).
Qed.

(** * Further properties of the script *)

(** ** The standard branch on a machine marked custom *)

Lemma script_idle_policy_standard h G0 args content :
  custom args = false ->
  strip (readline content) = "custom" ->
  inv (Inv (idle_policy_call args) idle_policy_exec None (start (Some content)))
      (script h G0 args).
Proof.
  intros Hc Hstd. destruct args as [c r d s v cu n]. simpl in Hc. subst c.
  unfold script. apply inv_bind; [unfold module_init; inv_walk|intros _].
  unfold main. apply inv_try; [|intros e; destruct e; inv_walk].
  unfold main_body. cbn [custom remove dev sound verbose cuda nexarian].
  apply inv_bind; [inv_walk|intros _].
  apply inv_bind; [unfold display_banner; inv_walk|intros _].
  eapply spec_bind.
  - apply (check_previous_runs_sets h v _ _ _ content);
      [exact idle_policy_no_marker|reflexivity|reflexivity].
  - intros []. cbv beta. rewrite Hstd. apply inv_forget.
    unfold detect_desktop_environment, check_os, check_hwe, remove_xrdp,
      install_cuda, prep_os, enable_sound.
    inv_walk_guard.
Qed.

(** X1. With [custom] unset and a marker file whose first line reads
    "custom", a run installs nothing: it enters no function of either
    install branch nor the common fix-up, dispatches no marker command and
    leaves the marker file as it was; besides the startup functions it
    enters the removal or the OS preparation, and the CUDA and sound
    steps only if flagged. *)
Theorem standard_run_idle_on_custom h G0 args content :
  custom args = false ->
  strip (readline content) = "custom" ->
  let w := snd (run h G0 args (Some content)) in
  state_file w = Some content /\
  (forall fn, In fn (calls (trace w)) ->
     ~ In fn main_mode /\
     (In fn startup_steps \/ fn = "remove_xrdp" \/ fn = "prep_os" \/
      (fn = "install_cuda" /\ cuda args = true) \/
      (fn = "enable_sound" /\ sound args = true))) /\
  (forall c, In c (execs (trace w)) -> is_marker c = false).
Proof.
  intros Hc Hstd w.
  destruct (run_policy h G0 args (Some content) _ _
              (script_idle_policy_standard h G0 args content Hc Hstd)) as [Hp Hs].
  fold w in Hp, Hs. split; [|split].
  - rewrite Hs. eapply replay_no_marker; [exact idle_policy_no_marker|exact Hp].
  - intros fn Hin. pose proof (policy_calls _ _ _ _ Hp Hin) as H.
    split; [eapply not_mem_main_mode; exact H|apply idle_policy_call_spec; exact H].
  - intros c Hin. apply idle_policy_no_marker. exact (policy_execs _ _ _ _ Hp Hin).
Qed.

Lemma standard_run_idle_on_custom_witness :
  custom (flags false false true true) = false /\
  strip (readline ("custom" +:+ nl)) = "custom" /\
  state_file (snd (run (ubuntu_host 1000) prebound_globals (flags false false true true)
                       (Some ("custom" +:+ nl)))) = Some ("custom" +:+ nl).
Proof.
  split; [reflexivity|]. split; [reflexivity|].
  destruct (standard_run_idle_on_custom (ubuntu_host 1000) prebound_globals
              (flags false false true true) ("custom" +:+ nl) eq_refl eq_refl)
    as [H _].
  exact H.
Defined.

(** ** Elevation *)

Lemma script_elevation_policy h G0 args w0 :
  inv (Inv (fun _ => true) elevation_policy_exec None w0) (script h G0 args).
Proof.
  destruct args as [c r d s v cu n].
  destruct n, d; unfold_script; inv_walk.
Qed.

(** X2. Every command line a run dispatches either starts with [sudo] or
    is one of the few the script runs as the invoking user: the wget
    download of the CUDA keyring, a git clone from github.com, and the
    [./bootstrap], [./configure] and [make] of the sound module. *)
Theorem commands_elevated_or_listed h G0 args f c :
  In c (execs (trace (snd (run h G0 args f)))) ->
  String.prefix "sudo " c = true \/ unprivileged c = true.
Proof.
  intros Hin.
  destruct (run_policy h G0 args f _ _ (script_elevation_policy h G0 args _))
    as [Hp _].
  pose proof (policy_execs _ _ _ _ Hp Hin) as H.
  unfold elevation_policy_exec in H. apply orb_prop in H. exact H.
Qed.

Lemma commands_elevated_or_listed_witness :
  In "sudo apt-get install xrdp -y"
     (execs (trace (snd (run (ubuntu_host 1000) prebound_globals
                             (flags false false false false) None)))) /\
  (String.prefix "sudo " "sudo apt-get install xrdp -y" = true \/
   unprivileged "sudo apt-get install xrdp -y" = true).
Proof.
  assert (Hin : In "sudo apt-get install xrdp -y"
                   (execs (trace (snd (run (ubuntu_host 1000) prebound_globals
                                           (flags false false false false) None))))).
  { vm_compute. tauto. }
  split; [exact Hin|].
  exact (commands_elevated_or_listed _ _ _ _ _ Hin).
Defined.

(** ** What must hold before any command is dispatched *)

(** X3. A run dispatches a command through [run_command] only if the
    process is not root, the distro string contains a supported name and
    the name [Release] resolves: otherwise it has stopped before. *)
Theorem commands_only_after_checks h G0 args f :
  execs (trace (snd (run h G0 args f))) <> [] ->
  geteuid h <> 0%Z /\
  existsb (fun v => str_in v (getoutput h [] "lsb_release -sd")) supported = true /\
  G0 !! "Release" <> None.
Proof.
  intros Hne.
  assert (Hu : geteuid h <> 0%Z).
  { intros Hroot. destruct (run_as_root h G0 args f Hroot) as [g Hrun].
    rewrite Hrun in Hne. apply Hne. cbn [snd trace].
    unfold execs. rewrite flat_map_app. reflexivity. }
  split; [exact Hu|].
  destruct (existsb _ supported) eqn:Hos.
  - split; [reflexivity|]. intros HG.
    destruct (run_stops_in_check_hwe h G0 args f HG Hu Hos) as (g & tr & Hrun & He & _).
    rewrite Hrun in Hne. exact (Hne He).
  - exfalso.
    destruct (run_unsupported h G0 args f Hu Hos) as (g & tr & Hrun & He & _).
    rewrite Hrun in Hne. exact (Hne He).
Qed.

Lemma commands_only_after_checks_witness :
  execs (trace (snd (run (ubuntu_host 1000) prebound_globals
                         (flags false true false false) None))) <> [] /\
  geteuid (ubuntu_host 1000) <> 0%Z /\
  prebound_globals !! "Release" <> None.
Proof.
  assert (Hne : execs (trace (snd (run (ubuntu_host 1000) prebound_globals
                                       (flags false true false false) None))) <> []).
  { vm_compute. discriminate. }
  split; [exact Hne|].
  destruct (commands_only_after_checks _ _ _ _ Hne) as (H1 & _ & H2).
  split; [exact H1|exact H2].
Defined.

(** ** Reading the marker file *)













(** ** Stopping at the first failure *)

Section KeepsRules.

Context {I : World -> Prop} {E : exn -> World -> Prop}.

Lemma keeps_ret {A} (a : A) : keeps I E (ret a).
Proof. apply spec_ret. auto. Qed.

Lemma keeps_raise {A} (e : exn) : (forall w, I w -> E e w) -> keeps I E (@raise A e).
Proof. intros H. apply spec_raise. exact H. Qed.

Lemma keeps_bind {A B} (m : M A) (f : A -> M B) :
  keeps I E m -> (forall a, keeps I E (f a)) -> keeps I E (bind m f).
Proof. intros Hm Hf. eapply spec_bind; [exact Hm|exact Hf]. Qed.

Lemma keeps_when b m : keeps I E m -> keeps I E (when b m).
Proof. destruct b; simpl; [auto|intros _; apply keeps_ret]. Qed.

Lemma keeps_for_each {A} (l : list A) body :
  (forall a, keeps I E (body a)) -> keeps I E (for_each l body).
Proof.
  intros Hb. induction l as [|x l IH]; simpl.
  - apply keeps_ret.
  - apply keeps_bind; [apply Hb|intros _; exact IH].
Qed.

End KeepsRules.

Lemma forallb_exec_ok_fail_fast d : forallb exec_ok d = true -> fail_fast d = true.
Proof.
  induction d as [|e d IH]; simpl; [reflexivity|].
  intros H. apply andb_prop in H as [He Hd]. rewrite He. auto.
Qed.

Lemma fail_fast_app_clean d d' :
  forallb exec_ok d = true -> fail_fast d' = true -> fail_fast (d ++ d') = true.
Proof.
  induction d as [|e d IH]; simpl; [auto|].
  intros H Hd'. apply andb_prop in H as [He Hd]. rewrite He. auto.
Qed.


Lemma Clean_refl w : Clean w w.
Proof. exists []. rewrite app_nil_r. auto. Qed.

Lemma Clean_event w0 w e f' g' :
  exec_ok e = true -> Clean w0 w -> Clean w0 (mkWorld f' g' (trace w ++ [e])%list).
Proof.
  intros He (d & Ht & Hd). exists (d ++ [e])%list. simpl. split.
  - rewrite Ht, <- app_assoc. reflexivity.
  - rewrite forallb_app, Hd. simpl. rewrite He. reflexivity.
Qed.

Lemma Clean_glob w0 w f' g' : Clean w0 w -> Clean w0 (mkWorld f' g' (trace w)).
Proof. intros (d & Ht & Hd). exists d. auto. Qed.

Lemma Clean_Stopped w0 w e :
  raisable e = true -> Clean w0 w -> Stopped w0 e w.
Proof.
  intros He (d & Ht & Hd). exists d. split; [exact Ht|]. split; [exact He|].
  destruct e; auto. apply forallb_exec_ok_fail_fast. exact Hd.
Qed.

Section CleanRules.

Variable h : Host.
Variable G0 : gmap string PyVal.
Variable w0 : World.

Local Abbreviation good := (keeps (Clean w0) (Stopped w0)).

Lemma good_raise {A} e : raisable e = true -> good (@raise A e).
Proof. intros He. apply keeps_raise. intros w. apply Clean_Stopped. exact He. Qed.

Lemma good_emit e : is_exec e = false -> good (emit e).
Proof.
  intros He w Hw. unfold wp, emit. apply Clean_event; auto.
  destruct e; try reflexivity. discriminate He.
Qed.

Lemma good_print text : good (print text).
Proof. apply good_emit. reflexivity. Qed.

Lemma good_print_colored text color : good (print_colored text color).
Proof. apply good_print. Qed.

Lemma good_getoutput cmd : good (subprocess_getoutput h cmd).
Proof. intros w Hw. unfold wp, subprocess_getoutput. apply Clean_event; auto. Qed.

Lemma good_pure {A} (m : M A) :
  (forall w, exists a, m w = (Ok a, w)) -> good m.
Proof.
  intros H w Hw. unfold wp. destruct (H w) as [a ->]. exact Hw.
Qed.

Lemma good_path_exists path : good (os_path_exists h path).
Proof. apply good_pure. intros w. eexists. reflexivity. Qed.

Lemma good_get_glob : good get_glob.
Proof. apply good_pure. intros w. eexists. reflexivity. Qed.

Lemma good_set_glob f : good (set_glob f).
Proof. intros w Hw. unfold wp, set_glob. apply Clean_glob. exact Hw. Qed.

Lemma good_open_readline path : good (open_readline path).
Proof.
  intros w Hw. unfold wp, open_readline.
  destruct (state_file w); [exact Hw|].
  apply Clean_Stopped; [reflexivity|exact Hw].
Qed.

Lemma good_chdir path : good (os_chdir h path).
Proof.
  intros w Hw. unfold wp, os_chdir.
  destruct (chdir_ok h (trace w) path).
  - apply Clean_event; auto.
  - apply Clean_Stopped; [reflexivity|]. apply Clean_event; auto.
Qed.

Lemma good_remove path : good (os_remove h path).
Proof.
  intros w Hw. unfold wp, os_remove.
  destruct (remove_ok h (trace w) path).
  - apply Clean_event; auto.
  - apply Clean_Stopped; [reflexivity|]. apply Clean_event; auto.
Qed.

Lemma good_load_name name :
  mem name ["Release"; "verbose"] = true -> good (load_name G0 name).
Proof.
  intros Hn w Hw. unfold wp, load_name.
  destruct (G0 !! name); [exact Hw|].
  apply Clean_Stopped; [exact Hn|exact Hw].
Qed.

Lemma clean_print_any E text : keeps (Clean w0) E (print text).
Proof. intros w Hw. unfold wp, print, emit. apply Clean_event; auto. Qed.

Lemma clean_run_check c :
  spec (Clean w0) (subprocess_run_check h c) (fun _ => Clean w0)
       (fun e w => (exists cmd code err, e = CalledProcessError cmd code err) /\
                   forall msg, Stopped w0 (SetupError msg) w).
Proof.
  intros w Hw. unfold wp, subprocess_run_check.
  destruct (returncode (subprocess_run h (trace w) c) =? 0)%Z eqn:Hr.
  - apply Clean_event; auto.
  - split; [eauto|]. intros msg. destruct Hw as (d & Ht & Hd).
    exists (d ++ [Exec c (returncode (subprocess_run h (trace w) c))])%list.
    simpl. split; [rewrite Ht, <- app_assoc; reflexivity|]. split; [reflexivity|].
    apply fail_fast_app_clean; [exact Hd|]. simpl. rewrite Hr. reflexivity.
Qed.

Lemma good_run_command (command : string) (sudo verbose : bool) :
  good (run_command h command sudo verbose).
Proof.
  unfold run_command.
  apply keeps_bind; [apply keeps_when, good_print_colored|intros _].
  eapply spec_try.
  - eapply spec_bind; [apply clean_run_check|intros r].
    apply keeps_bind; [apply keeps_when, clean_print_any|intros _; apply keeps_ret].
  - intros e w [(cmd & code & err & ->) Hs]. unfold wp, raise. apply Hs.
Qed.

End CleanRules.

Ltac good_step :=
  lazymatch goal with
  | |- keeps _ _ (bind _ _) => apply keeps_bind; [|intros ?]
  | |- keeps _ _ (ret _) => apply keeps_ret
  | |- keeps _ _ (raise _) => apply good_raise; reflexivity
  | |- keeps _ _ (when _ _) => apply keeps_when
  | |- keeps _ _ (for_each _ _) => apply keeps_for_each; intros ?
  | |- keeps _ _ (emit (Call _)) => apply good_emit; reflexivity
  | |- keeps _ _ (print _) => apply good_print
  | |- keeps _ _ (print_colored _ _) => apply good_print_colored
  | |- keeps _ _ (subprocess_getoutput _ _) => apply good_getoutput
  | |- keeps _ _ (os_path_exists _ _) => apply good_path_exists
  | |- keeps _ _ (open_readline _) => apply good_open_readline
  | |- keeps _ _ (os_chdir _ _) => apply good_chdir
  | |- keeps _ _ (os_remove _ _) => apply good_remove
  | |- keeps _ _ get_glob => apply good_get_glob
  | |- keeps _ _ (set_glob _) => apply good_set_glob
  | |- keeps _ _ (load_name _ _) => apply good_load_name; reflexivity
  | |- keeps _ _ (run_command _ _ _ _) => apply good_run_command
  | |- keeps _ _ (if ?b then _ else _) => destruct b eqn:?
  | |- keeps _ _ (match ?x with _ => _ end) => destruct x eqn:?
  end.

Lemma main_body_good h G0 args w0 :
  keeps (Clean w0) (Stopped w0) (main_body h G0 args).
Proof.
  destruct args as [c r d s v cu n].
  unfold main_body, display_banner,
    check_previous_runs, detect_desktop_environment, check_os, check_hwe,
    install_cuda, prep_os, install_xrdp, install_prereqs, get_binaries,
    compile_source, enable_service, install_common, enable_sound, remove_xrdp;
  cbn [custom remove dev sound verbose cuda nexarian].
  repeat good_step.
Qed.









(** ** Successful runs *)

Lemma bind_ok_inv {A B} (m : M A) (f : A -> M B) w b w' :
  bind m f w = (Ok b, w') ->
  exists a w1, m w = (Ok a, w1) /\ f a w1 = (Ok b, w').
Proof.
  unfold bind. destruct (m w) as [[a|e] w1]; [eauto|discriminate].
Qed.

Lemma main_ok_inv h G0 args w w' :
  main h G0 args w = (Ok tt, w') -> main_body h G0 args w = (Ok tt, w').
Proof.
  unfold main, try_except. destruct (main_body h G0 args w) as [[[]|e] w1]; [auto|].
  destruct e; unfold bind, print_colored, print, emit, raise; discriminate.
Qed.

Lemma execs_app a b : execs (a ++ b)%list = (execs a ++ execs b)%list.
Proof. apply flat_map_app. Qed.

Lemma Dispatched_refl w : Dispatched [] w w.
Proof. unfold Dispatched. rewrite app_nil_r. auto. Qed.

Lemma Dispatched_trans l1 l2 w w1 w2 :
  Dispatched l1 w w1 -> Dispatched l2 w1 w2 -> Dispatched (l1 ++ l2) w w2.
Proof.
  intros (He1 & Hs1 & Hg1) (He2 & Hs2 & Hg2). unfold Dispatched, shell_effects in *.
  rewrite He2, He1, Hs2, Hs1, Hg2, Hg1, fold_left_app, app_assoc. auto.
Qed.

(** An event that is no command. *)
Lemma emit_ok e a w w' :
  is_exec e = false -> emit e w = (Ok a, w') -> Dispatched [] w w'.
Proof.
  intros He H. unfold emit in H. injection H as _ <-.
  unfold Dispatched. cbn [trace state_file glob]. rewrite execs_app.
  destruct e; try discriminate He; simpl; rewrite ?app_nil_r; auto.
Qed.

Lemma print_colored_ok text color a w w' :
  print_colored text color w = (Ok a, w') -> Dispatched [] w w'.
Proof. apply emit_ok. reflexivity. Qed.

Lemma when_ok b m w w' :
  (forall w w', m w = (Ok tt, w') -> Dispatched [] w w') ->
  when b m w = (Ok tt, w') -> Dispatched [] w w'.
Proof.
  intros Hm. destruct b; simpl; [apply Hm|].
  intros H. injection H as <-. apply Dispatched_refl.
Qed.

Lemma getoutput_ok h cmd a w w' :
  subprocess_getoutput h cmd w = (Ok a, w') ->
  Dispatched [] w w' /\ a = getoutput h (trace w) cmd.
Proof.
  unfold subprocess_getoutput. intros H. injection H as <- <-.
  unfold Dispatched. cbn [trace state_file glob]. rewrite execs_app. simpl.
  rewrite app_nil_r. auto.
Qed.

Lemma chdir_ok_inv h path a w w' :
  os_chdir h path w = (Ok a, w') -> Dispatched [] w w'.
Proof.
  unfold os_chdir. destruct (chdir_ok h (trace w) path); [|discriminate].
  intros H. injection H as _ <-.
  unfold Dispatched. cbn [trace state_file glob]. rewrite execs_app. simpl.
  rewrite app_nil_r. auto.
Qed.

Lemma remove_ok_inv h path a w w' :
  os_remove h path w = (Ok a, w') -> Dispatched [] w w'.
Proof.
  unfold os_remove. destruct (remove_ok h (trace w) path); [|discriminate].
  intros H. injection H as _ <-.
  unfold Dispatched. cbn [trace state_file glob]. rewrite execs_app. simpl.
  rewrite app_nil_r. auto.
Qed.

Lemma load_name_ok G0 name v w w' :
  load_name G0 name w = (Ok v, w') -> w' = w /\ G0 !! name = Some v.
Proof.
  unfold load_name. destruct (G0 !! name); [|discriminate].
  intros H. injection H as <- <-. auto.
Qed.

(** What a successful [run_command] has done. *)
Lemma run_command_ok h (command : string) (sudo verbose : bool) w r w' :
  run_command h command sudo verbose w = (Ok r, w') ->
  Dispatched [if sudo then "sudo " +:+ command else command] w w'.
Proof.
  unfold run_command, bind, try_except, when, print_colored, print, emit,
    subprocess_run_check, ret, raise, Dispatched, shell_effects.
  destruct verbose; cbn [trace state_file glob andb fold_left];
    match goal with
    | |- context [(returncode (subprocess_run h ?t ?c) =? 0)%Z] =>
        destruct (returncode (subprocess_run h t c) =? 0)%Z eqn:Hc
    end; try discriminate;
    apply Z.eqb_eq in Hc;
    try (destruct (negb (stdout _ =? "")));
    intros H; injection H as <- <-; cbn [trace state_file glob]; rewrite Hc;
    (split; [rewrite ?execs_app; simpl; rewrite ?app_nil_r, <- ?app_assoc; reflexivity|]);
    (split; reflexivity).
Qed.

Lemma Dispatched_glob l w w' : Dispatched l w w' -> glob w' = glob w.
Proof. intros (_ & _ & H). exact H. Qed.

Lemma path_exists_ok h path a w w' :
  (path =? log_file) = false ->
  os_path_exists h path w = (Ok a, w') -> w' = w /\ a = path_exists h (trace w) path.
Proof.
  unfold os_path_exists. intros ->. intros H. injection H as <- <-. auto.
Qed.

(** Walking down a successful computation: [Hacc] says what was
    dispatched so far, [H] is what is left to run. *)
Ltac ok_join Hacc Hm :=
  let H' := fresh "Hacc" in
  pose proof (Dispatched_trans _ _ _ _ _ Hacc Hm) as H';
  clear Hacc Hm; rename H' into Hacc.

Ltac ok_walk Hacc H :=
  try rewrite (Dispatched_glob _ _ _ Hacc) in H;
  lazymatch type of H with
  | bind _ _ _ = (Ok _, _) =>
      let a := fresh "a" in
      let w1 := fresh "w" in
      let Hm := fresh "Hm" in
      apply bind_ok_inv in H as (a & w1 & Hm & H); cbv beta in H;
      ok_walk Hacc Hm; ok_walk Hacc H
  | ret _ _ = (Ok _, ?w2) =>
      unfold ret in H; apply (f_equal snd) in H; cbn [snd] in H; subst w2
  | get_glob _ = (Ok _, _) =>
      unfold get_glob in H; injection H as <- <-
  | for_each _ _ _ = (Ok _, _) =>
      cbn [for_each] in H; ok_walk Hacc H
  | when ?b _ _ = (Ok _, _) =>
      unfold when in H; ok_walk Hacc H
  | (if ?c then _ else _) _ = (Ok _, _) =>
      destruct c eqn:?; ok_walk Hacc H
  | emit _ _ = (Ok _, _) =>
      apply emit_ok in H; [|reflexivity]; ok_join Hacc H
  | print_colored _ _ _ = (Ok _, _) =>
      apply print_colored_ok in H; ok_join Hacc H
  | os_chdir _ _ _ = (Ok _, _) =>
      apply chdir_ok_inv in H; ok_join Hacc H
  | os_remove _ _ _ = (Ok _, _) =>
      apply remove_ok_inv in H; ok_join Hacc H
  | run_command _ _ _ _ _ = (Ok _, _) =>
      apply run_command_ok in H; ok_join Hacc H
  | os_path_exists _ _ _ = (Ok _, _) =>
      apply path_exists_ok in H as [-> ->]; [|reflexivity]
  | load_name _ _ _ = (Ok _, _) =>
      let HN := fresh "HN" in apply load_name_ok in H as [-> HN]
  | _ => idtac
  end.

Ltac ok_start H :=
  let Hacc := fresh "Hacc" in
  lazymatch type of H with
  | _ ?w = (Ok _, _) => pose proof (Dispatched_refl w) as Hacc; ok_walk Hacc H
  end.

Lemma remove_xrdp_ok h v w w' :
  remove_xrdp h v w = (Ok tt, w') -> Dispatched removal_actions w w'.
Proof. unfold remove_xrdp. intros H. ok_start H. exact Hacc. Qed.

Lemma install_cuda_ok h v w w' :
  install_cuda h v w = (Ok tt, w') -> Dispatched cuda_commands w w'.
Proof. unfold install_cuda. intros H. ok_start H. exact Hacc. Qed.

Lemma prep_os_ok h v w w' :
  prep_os h v w = (Ok tt, w') -> Dispatched (prep_commands (version (glob w))) w w'.
Proof.
  unfold prep_os, prep_commands. intros H. ok_start H; exact Hacc.
Qed.

Lemma install_xrdp_ok h v w w' :
  install_xrdp h v w = (Ok tt, w') -> Dispatched ["sudo apt-get install xrdp -y"] w w'.
Proof. unfold install_xrdp. intros H. ok_start H. exact Hacc. Qed.

Lemma compile_source_ok h v w w' :
  compile_source h v w = (Ok tt, w') -> Dispatched (compile_commands h) w w'.
Proof. unfold compile_source. intros H. ok_start H. exact Hacc. Qed.

Lemma enable_service_ok h v w w' :
  enable_service h v w = (Ok tt, w') -> Dispatched service_commands w w'.
Proof. unfold enable_service. intros H. ok_start H. exact Hacc. Qed.

Lemma install_common_ok h v w w' :
  install_common h v w = (Ok tt, w') ->
  Dispatched (common_commands (DesktopVer (glob w))) w w'.
Proof.
  unfold install_common, common_commands. intros H. ok_start H; exact Hacc.
Qed.

Lemma install_prereqs_ok h G0 v R w w' :
  G0 !! "Release" = Some R ->
  install_prereqs h G0 v w = (Ok tt, w') ->
  Dispatched (prereq_commands (HWE (glob w) =? "yes") (py_str R)) w w'.
Proof.
  unfold install_prereqs, prereq_commands. intros HR H. ok_start H.
  - rewrite HR in HN, HN0. injection HN as <-. injection HN0 as <-. exact Hacc.
  - exact Hacc.
Qed.

Lemma get_binaries_ok h args v w w' :
  get_binaries h args v w = (Ok tt, w') ->
  exists tr1 tr2,
    Dispatched (cleanup_commands (path_exists h tr1 "xrdp") (path_exists h tr2 "xorgxrdp")
                ++ clone_commands args) w w'.
Proof.
  unfold get_binaries, cleanup_commands, clone_commands. intros H.
  destruct args as [c r d s vb cu n]. cbn [nexarian dev] in *.
  ok_start H;
    match goal with
    | H1 : path_exists h ?t1 "xrdp" = _, H2 : path_exists h ?t2 "xorgxrdp" = _ |- _ =>
        exists t1, t2; rewrite H1, H2
    end;
    destruct n, d; exact Hacc.
Qed.

Lemma enable_sound_ok h args v w w' :
  enable_sound h args v w = (Ok tt, w') ->
  exists tr,
    Dispatched (if str_in "PipeWire"
                     (getoutput h tr "pactl info | grep 'Server Name' | cut -d: -f2")
                then sound_commands else []) w w'.
Proof.
  unfold enable_sound. intros H.
  apply bind_ok_inv in H as (a & w1 & Hm & H).
  apply emit_ok in Hm; [|reflexivity].
  apply bind_ok_inv in H as (out & w2 & Hp & H). cbv beta in H.
  apply getoutput_ok in Hp as [Hp ->].
  pose proof (Dispatched_trans _ _ _ _ _ Hm Hp) as Hacc.
  exists (trace w1).
  destruct (str_in "PipeWire" _); ok_walk Hacc H; exact Hacc.
Qed.

(** *** The startup of a run *)

Lemma display_banner_ok h w w' :
  display_banner h w = (Ok tt, w') -> Dispatched [] w w'.
Proof. unfold display_banner. intros H. ok_start H. exact Hacc. Qed.

Lemma detected_desktop_eq h v w :
  detect_desktop_environment h v w =
  (Ok tt, mkWorld (state_file w)
            (mkGlobals (version (glob w)) (codename (glob w)) (release (glob w))
               (ucodename (glob w)) (download_dir (glob w)) (modetype (glob w))
               (detected_desktop h)
               (SessionVer (glob (snd (detect_desktop_environment h v w))))
               (ConfDir (glob (snd (detect_desktop_environment h v w))))
               (GDMSess (glob (snd (detect_desktop_environment h v w))))
               (HWE (glob w)))
            (trace w ++ [Call "detect_desktop_environment"])%list).
Proof.
  unfold detected_desktop, detect_desktop_environment, bind, emit, set_glob, with_desktop,
    environ_get.
  destruct (environ h "XDG_SESSION_TYPE") as [t|]; [destruct (t =? "tty")|]; reflexivity.
Qed.

Lemma check_previous_runs_ok h verbose w w' :
  check_previous_runs h verbose w = (Ok tt, w') ->
  execs (trace w') = execs (trace w) /\
  state_file w' = state_file w /\
  glob w' = match state_file w with
            | Some content => with_modetype (strip (readline content)) (glob w)
            | None => glob w
            end.
Proof.
  rewrite check_previous_runs_run. intros H. injection H as <-.
  destruct (state_file w) as [content|] eqn:Hf; cbv zeta; cbn [trace state_file glob].
  - rewrite !execs_app. destruct verbose; cbn [execs flat_map app];
      rewrite ?app_nil_r; auto.
  - rewrite execs_app. cbn [execs flat_map app]. rewrite app_nil_r. auto.
Qed.

Lemma check_os_ok verbose w w' :
  check_os verbose w = (Ok tt, w') ->
  execs (trace w') = execs (trace w) /\ state_file w' = state_file w /\
  glob w' = glob w.
Proof.
  unfold check_os, bind, emit, get_glob. cbn [trace state_file glob].
  destruct (negb _); [discriminate|]. intros H. injection H as <-.
  cbn [trace state_file glob]. rewrite execs_app. cbn [execs flat_map app].
  rewrite app_nil_r. auto.
Qed.

Lemma check_hwe_ok h G0 verbose w w' :
  check_hwe h G0 verbose w = (Ok tt, w') ->
  exists R tr,
    G0 !! "Release" = Some R /\
    execs (trace w') = execs (trace w) /\ state_file w' = state_file w /\
    glob w' =
      with_HWE (if str_in "installed"
                     (getoutput h tr ("dpkg-query -W -f='${Status}' xserver-xorg-core-hwe-"
                                      +:+ py_str R +:+ " 2>/dev/null"))
                then "yes" else "no") (glob w).
Proof.
  unfold check_hwe. intros H.
  apply bind_ok_inv in H as ([] & w1 & H1 & H). apply emit_ok in H1; [|reflexivity].
  apply bind_ok_inv in H as (o1 & w2 & H2 & H). apply getoutput_ok in H2 as [H2 _].
  apply bind_ok_inv in H as (R & w3 & H3 & H). apply load_name_ok in H3 as [-> HR].
  apply bind_ok_inv in H as (o2 & w4 & H4 & H). apply getoutput_ok in H4 as [H4 ->].
  unfold set_glob in H. injection H as <-.
  pose proof (Dispatched_trans _ _ _ _ _ (Dispatched_trans _ _ _ _ _ H1 H2) H4)
    as (He & Hs & Hg).
  exists R, (trace w2). cbn [trace state_file glob].
  rewrite He, Hs, Hg, app_nil_r. auto.
Qed.

(** The six steps every run starts with, when they all return. *)
Lemma startup_ok h G0 verbose (K : M unit) w0 w' :
  ((if (geteuid h =? 0)%Z then raise (SetupError "Script must not run with sudo")
    else ret tt) ;;
   display_banner h ;;
   check_previous_runs h verbose ;;
   detect_desktop_environment h verbose ;;
   check_os verbose ;;
   check_hwe h G0 verbose ;;
   K) w0 = (Ok tt, w') ->
  exists R tr w,
    G0 !! "Release" = Some R /\
    K w = (Ok tt, w') /\
    execs (trace w) = execs (trace w0) /\
    state_file w = state_file w0 /\
    version (glob w) = version (glob w0) /\
    modetype (glob w) = match state_file w0 with
                        | Some content => strip (readline content)
                        | None => modetype (glob w0)
                        end /\
    DesktopVer (glob w) = detected_desktop h /\
    HWE (glob w) =
      (if str_in "installed"
            (getoutput h tr ("dpkg-query -W -f='${Status}' xserver-xorg-core-hwe-"
                             +:+ py_str R +:+ " 2>/dev/null"))
       then "yes" else "no").
Proof.
  intros H.
  apply bind_ok_inv in H as ([] & w1 & H1 & H).
  assert (w1 = w0) as ->.
  { destruct (geteuid h =? 0)%Z; [discriminate H1|]. injection H1 as <-. reflexivity. }
  clear H1.
  apply bind_ok_inv in H as ([] & w2 & H2 & H). apply display_banner_ok in H2.
  destruct H2 as (He2 & Hs2 & Hg2). rewrite app_nil_r in He2.
  change (shell_effects [] (state_file w0)) with (state_file w0) in Hs2.
  apply bind_ok_inv in H as ([] & w3 & H3 & H).
  apply check_previous_runs_ok in H3 as (He3 & Hs3 & Hg3).
  apply bind_ok_inv in H as ([] & w4 & H4 & H).
  rewrite detected_desktop_eq in H4. injection H4 as H4.
  apply bind_ok_inv in H as ([] & w5 & H5 & H).
  apply check_os_ok in H5 as (He5 & Hs5 & Hg5).
  apply bind_ok_inv in H as ([] & w6 & H6 & H).
  apply check_hwe_ok in H6 as (R & tr & HR & He6 & Hs6 & Hg6).
  exists R, tr, w6. split; [exact HR|]. split; [exact H|].
  rewrite He6, He5, Hs6, Hs5, Hg6, Hg5, <- H4.
  cbn [trace state_file glob version modetype DesktopVer HWE with_HWE].
  rewrite execs_app. cbn [execs flat_map app]. rewrite app_nil_r.
  rewrite He3, He2, Hs3, Hs2, Hg3, Hs2, Hg2.
  destruct (state_file w0); cbn [version modetype with_modetype]; auto 8.
Qed.

(** Module initialisation, which always returns. *)
Lemma module_init_ok h f a w :
  module_init h (start f) = (Ok a, w) ->
  execs (trace w) = [] /\ state_file w = f /\
  version (glob w) = getoutput h [] "lsb_release -sd" /\
  modetype (glob w) = "unknown".
Proof.
  unfold module_init, bind, subprocess_getoutput, set_glob, start.
  cbn [trace state_file glob]. intros H. injection H as _ <-. auto.
Qed.

Lemma Dispatched_start l l' w w' f :
  Dispatched l w w' -> execs (trace w) = [] -> state_file w = f -> l = l' ->
  execs (trace w') = l' /\ state_file w' = shell_effects l' f.
Proof. intros (He & Hs & _) Hw Hf <-. rewrite He, Hs, Hw, Hf. auto. Qed.

Lemma yes_no_eqb (b : bool) : ((if b then "yes" else "no") =? "yes") = b.
Proof. destruct b; reflexivity. Qed.

Ltac some_trace :=
  first [lazymatch goal with |- ex (fun _ => ?P) => exists [] end|eexists].

Ltac ok_call Hacc H lem :=
  apply lem in H; try rewrite (Dispatched_glob _ _ _ Hacc) in H; ok_join Hacc H.

(** Walking down the part of [main] after the startup. *)
Ltac ok_main Hacc H HR :=
  try rewrite (Dispatched_glob _ _ _ Hacc) in H;
  lazymatch type of H with
  | bind _ _ _ = (Ok _, _) =>
      let a := fresh "a" in
      let w1 := fresh "w" in
      let Hm := fresh "Hm" in
      apply bind_ok_inv in H as (a & w1 & Hm & H); cbv beta in H;
      lazymatch type of a with unit => destruct a | _ => idtac end;
      ok_main Hacc Hm HR; ok_main Hacc H HR
  | (if ?c then _ else _) _ = (Ok _, _) =>
      destruct c eqn:?; ok_main Hacc H HR
  | install_cuda _ _ _ = (Ok _, _) => ok_call Hacc H install_cuda_ok
  | prep_os _ _ _ = (Ok _, _) => ok_call Hacc H prep_os_ok
  | install_xrdp _ _ _ = (Ok _, _) => ok_call Hacc H install_xrdp_ok
  | install_prereqs _ _ _ _ = (Ok _, _) =>
      apply (install_prereqs_ok _ _ _ _ _ _ HR) in H;
      try rewrite (Dispatched_glob _ _ _ Hacc) in H; ok_join Hacc H
  | get_binaries _ _ _ _ = (Ok _, _) =>
      let t1 := fresh "tr" in
      let t2 := fresh "tr" in
      apply get_binaries_ok in H as (t1 & t2 & H); ok_join Hacc H
  | compile_source _ _ _ = (Ok _, _) => ok_call Hacc H compile_source_ok
  | enable_service _ _ _ = (Ok _, _) => ok_call Hacc H enable_service_ok
  | install_common _ _ _ = (Ok _, _) => ok_call Hacc H install_common_ok
  | enable_sound _ _ _ _ = (Ok _, _) =>
      let t := fresh "tr" in
      apply enable_sound_ok in H as (t & H); ok_join Hacc H
  | remove_xrdp _ _ _ = (Ok _, _) => ok_call Hacc H remove_xrdp_ok
  | _ => ok_walk Hacc H
  end.

(** The command lines of a run that returns, in full. *)
Lemma successful_run h G0 args f w' :
  run h G0 args f = (Ok tt, w') ->
  exists R tr0 tr1 tr2 tr3,
    G0 !! "Release" = Some R /\
    let install :=
      if custom args then
        if negb (startup_mode f =? "standard")
        then custom_commands h args
               (str_in "installed" (getoutput h tr0 (hwe_query (py_str R)))) (py_str R)
               (path_exists h tr1 "xrdp") (path_exists h tr2 "xorgxrdp")
               (detected_desktop h)
        else []
      else
        if negb (startup_mode f =? "custom")
        then standard_commands (detected_desktop h)
        else [] in
    let commands :=
      if remove args then removal_actions
      else ((if cuda args then cuda_commands else []) ++
            prep_commands (getoutput h [] "lsb_release -sd") ++
            install ++
            (if sound args && str_in "PipeWire" (getoutput h tr3 sound_query)
             then sound_commands else []))%list in
    execs (trace w') = commands /\ state_file w' = shell_effects commands f.
Proof.
  unfold run, script. intros H.
  apply bind_ok_inv in H as (a & w1 & Hinit & H).
  apply module_init_ok in Hinit as (He1 & Hs1 & Hv1 & Hm1).
  apply main_ok_inv in H. unfold main_body in H.
  apply startup_ok in H as (R & tr0 & w & HR & H & He & Hs & Hv & Hm & Hd & Hh).
  rewrite He1 in He. rewrite Hs1 in Hs, Hm. rewrite Hv1 in Hv.
  assert (Hmode : modetype (glob w) = startup_mode f).
  { rewrite Hm. destruct f; [reflexivity|exact Hm1]. }
  clear Hm Hm1 He1 Hs1 Hv1 a.
  exists R, tr0. rewrite <- Hmode, <- Hv, <- Hd.
  unfold hwe_query, sound_query.
  rewrite <- (yes_no_eqb (str_in "installed" _)), <- Hh.
  destruct args as [c r d s v cu n]. cbn [custom remove dev sound verbose cuda nexarian] in *.
  cbv zeta.
  pose proof (Dispatched_refl w) as Hacc.
  ok_main Hacc H HR.
  all: cbn [andb]; do 3 some_trace; (split; [exact HR|]);
    (eapply Dispatched_start; [exact Hacc|exact He|exact Hs|]);
    unfold custom_commands, standard_commands;
    rewrite <- ?app_assoc; cbn [app]; rewrite ?app_nil_r; reflexivity.
Qed.







(** X7. A remove run that returns has dispatched the three removal
    commands, in the order [systemctl stop], [apt-get autoremove],
    [apt-get purge], each under [sudo], and no other command, whatever the
    other flags and the marker file are. *)
Theorem successful_remove_run h G0 args f w' :
  remove args = true ->
  run h G0 args f = (Ok tt, w') ->
  execs (trace w') =
  ["sudo systemctl stop xrdp"; "sudo apt-get autoremove xrdp -y";
   "sudo apt-get purge xrdp -y"].
Proof.
  intros Hr H.
  destruct (successful_run h G0 args f w' H) as (R & t0 & t1 & t2 & t3 & _ & He & _).
  rewrite Hr in He. exact He.
Qed.

Lemma successful_remove_run_witness :
  let args := flags true true true true in
  let out := run (ubuntu_host 1000) release_globals args (Some ("custom" +:+ nl)) in
  remove args = true /\ fst out = Ok tt /\
  execs (trace (snd out)) =
  ["sudo systemctl stop xrdp"; "sudo apt-get autoremove xrdp -y";
   "sudo apt-get purge xrdp -y"].
Proof.
  intros args out.
  assert (H : run (ubuntu_host 1000) release_globals args (Some ("custom" +:+ nl))
              = (Ok tt, snd out)) by (vm_compute; reflexivity).
  split; [reflexivity|]. split; [vm_compute; reflexivity|].
  exact (successful_remove_run _ _ args _ _ eq_refl H).
Defined.







(** ** Reporting a failure *)

Section ReportRules.

Variable h : Host.
Variable G0 : gmap string PyVal.
Variable V : string.

Local Abbreviation told := (keeps (Described V) (Explained h V)).

(** A step that leaves the globals alone and raises no setup error. *)
Lemma told_quiet {A} (m : M A) :
  (forall w, glob (snd (m w)) = glob w /\
             match fst (m w) with Raise (SetupError _) => False | _ => True end) ->
  told m.
Proof.
  intros H w Hw. unfold wp. destruct (H w) as [Hg He].
  destruct (m w) as [[a|e] w']; cbn [fst snd] in *.
  - unfold Described. rewrite Hg. exact Hw.
  - destruct e; try exact Logic.I. destruct He.
Qed.

Lemma told_emit e : told (emit e).
Proof. apply told_quiet. intros w. split; [reflexivity|exact Logic.I]. Qed.

Lemma told_print text : told (print text).
Proof. apply told_emit. Qed.

Lemma told_print_colored text color : told (print_colored text color).
Proof. apply told_emit. Qed.

Lemma told_getoutput cmd : told (subprocess_getoutput h cmd).
Proof. apply told_quiet. intros w. split; [reflexivity|exact Logic.I]. Qed.

Lemma told_path_exists path : told (os_path_exists h path).
Proof. apply told_quiet. intros w. split; [reflexivity|exact Logic.I]. Qed.

Lemma told_get_glob : told get_glob.
Proof. apply told_quiet. intros w. split; [reflexivity|exact Logic.I]. Qed.

Lemma told_open_readline path : told (open_readline path).
Proof.
  apply told_quiet. intros w. unfold open_readline.
  destruct (state_file w); split; try reflexivity; exact Logic.I.
Qed.

Lemma told_chdir path : told (os_chdir h path).
Proof.
  apply told_quiet. intros w. unfold os_chdir.
  destruct (chdir_ok h (trace w) path); split; try reflexivity; exact Logic.I.
Qed.

Lemma told_remove path : told (os_remove h path).
Proof.
  apply told_quiet. intros w. unfold os_remove.
  destruct (remove_ok h (trace w) path); split; try reflexivity; exact Logic.I.
Qed.

Lemma told_load_name name : told (load_name G0 name).
Proof.
  apply told_quiet. intros w. unfold load_name.
  destruct (G0 !! name); split; try reflexivity; exact Logic.I.
Qed.

Lemma told_set_glob f :
  (forall g, version (f g) = version g) -> told (set_glob f).
Proof.
  intros Hf w Hw. unfold wp, set_glob, Described. cbn [glob]. rewrite Hf. exact Hw.
Qed.

Lemma told_privilege {A} : told (@raise A (SetupError "Script must not run with sudo")).
Proof. apply keeps_raise. intros w _. left. reflexivity. Qed.

Lemma told_check_os verbose : told (check_os verbose).
Proof.
  intros w Hw. unfold wp, check_os, bind, emit, get_glob, raise, ret.
  cbn [glob trace state_file]. destruct (negb _).
  - right. left. rewrite Hw. reflexivity.
  - exact Hw.
Qed.

Lemma told_run_command (command : string) (sudo verbose : bool) :
  told (run_command h command sudo verbose).
Proof.
  intros w Hw.
  unfold wp, run_command, bind, try_except, when, print_colored, print, emit,
    subprocess_run_check, ret, raise.
  destruct verbose; cbn [trace state_file glob andb];
    match goal with
    | |- context [(returncode (subprocess_run h ?t ?c) =? 0)%Z] =>
        destruct (returncode (subprocess_run h t c) =? 0)%Z eqn:Hc
    end;
    try (destruct (negb (stdout _ =? "")));
    try exact Hw;
    apply Z.eqb_neq in Hc; right; right; eexists; eexists;
    (split; [reflexivity|]); (split; [exact Hc|reflexivity]).
Qed.

End ReportRules.

Ltac told_step :=
  lazymatch goal with
  | |- keeps _ _ (bind _ _) => apply keeps_bind; [|intros ?]
  | |- keeps _ _ (ret _) => apply keeps_ret
  | |- keeps _ _ (raise (SetupError _)) => apply told_privilege
  | |- keeps _ _ (when _ _) => apply keeps_when
  | |- keeps _ _ (for_each _ _) => apply keeps_for_each; intros ?
  | |- keeps _ _ (emit _) => apply told_emit
  | |- keeps _ _ (print _) => apply told_print
  | |- keeps _ _ (print_colored _ _) => apply told_print_colored
  | |- keeps _ _ (subprocess_getoutput _ _) => apply told_getoutput
  | |- keeps _ _ (os_path_exists _ _) => apply told_path_exists
  | |- keeps _ _ (open_readline _) => apply told_open_readline
  | |- keeps _ _ (os_chdir _ _) => apply told_chdir
  | |- keeps _ _ (os_remove _ _) => apply told_remove
  | |- keeps _ _ get_glob => apply told_get_glob
  | |- keeps _ _ (set_glob _) => apply told_set_glob; intros ?; reflexivity
  | |- keeps _ _ (load_name _ _) => apply told_load_name
  | |- keeps _ _ (check_os _) => apply told_check_os
  | |- keeps _ _ (run_command _ _ _ _) => apply told_run_command
  | |- keeps _ _ (if ?b then _ else _) => destruct b eqn:?
  | |- keeps _ _ (match ?x with _ => _ end) => destruct x eqn:?
  end.

Lemma main_body_told h G0 args V :
  keeps (Described V) (Explained h V) (main_body h G0 args).
Proof.
  destruct args as [c r d s v cu n].
  unfold main_body, display_banner,
    check_previous_runs, detect_desktop_environment, check_hwe,
    install_cuda, prep_os, install_xrdp, install_prereqs, get_binaries,
    compile_source, enable_service, install_common, enable_sound, remove_xrdp;
  cbn [custom remove dev sound verbose cuda nexarian].
  repeat told_step.
Qed.

(** X11. A run that ends through [sys.exit] has exit code 1 and has
    printed, as the last thing it did, one line "Setup failed: " with the
    reason: the refusal to run as root, the unsupported distribution with
    its description, or "Command failed: " with the command line that has
    just come back with a non-zero status, which is the last event before
    the message, and the error output of that command. *)
Theorem failure_is_reported h G0 args f code w' :
  run h G0 args f = (Raise (SystemExit code), w') ->
  code = 1%Z /\
  exists msg tr,
    trace w' = (tr ++ [Print (failure_line msg)])%list /\
    Reported h (getoutput h [] "lsb_release -sd") msg tr.
Proof.
  unfold run, script. set (V := getoutput h [] "lsb_release -sd").
  assert (Hinit : exists w1, module_init h (start f) = (Ok tt, w1) /\ Described V w1).
  { eexists. split; reflexivity. }
  destruct Hinit as (w1 & Hinit & Hw1).
  unfold bind at 1. rewrite Hinit. unfold main, try_except.
  pose proof (main_body_told h G0 args V w1 Hw1) as Ht.
  pose proof (main_body_good h G0 args w1 w1 (Clean_refl _)) as Hg.
  unfold wp in Ht, Hg.
  destruct (main_body h G0 args w1) as [[[]|e] w2]; [discriminate|].
  destruct Hg as (d & _ & Hr & _).
  destruct e; try discriminate Hr; try (intros H; discriminate H).
  unfold bind, print_colored, print, emit, raise. cbn [trace state_file glob].
  intros H. injection H as <- <-. split; [reflexivity|].
  exists msg, (trace w2). split; [reflexivity|exact Ht].
Qed.

Lemma failure_is_reported_witness :
  let h := host_failing "Ubuntu 24.04.1 LTS" 1000 "sudo apt-get install xrdp -y" in
  let out := run h prebound_globals (flags false false false false) None in
  fst out = Raise (SystemExit 1) /\
  exists msg tr,
    trace (snd out) = (tr ++ [Print (failure_line msg)])%list /\
    Reported h (getoutput h [] "lsb_release -sd") msg tr.
Proof.
  intros h out.
  assert (H : run h prebound_globals (flags false false false false) None
              = (Raise (SystemExit 1), snd out)) by (vm_compute; reflexivity).
  split; [vm_compute; reflexivity|].
  exact (proj2 (failure_is_reported _ _ _ _ _ _ H)).
Defined.

(** ** The unbound name [verbose] *)







(** ** Flags that are not read *)

(** X13. Flags a run does not read change nothing: with [remove] set only
    [verbose] matters; without [custom] the flags [dev] and [nexarian] are
    not read; with [nexarian] set [dev] is not read. *)
Theorem unread_flags_ignored h G0 f (c r d s v cu n c' d' s' cu' n' : bool) :
  run h G0 (mkArgs c true d s v cu n) f = run h G0 (mkArgs c' true d' s' v cu' n') f /\
  run h G0 (mkArgs false r d s v cu n) f = run h G0 (mkArgs false r d' s v cu n') f /\
  run h G0 (mkArgs c r d s v cu true) f = run h G0 (mkArgs c r d' s v cu true) f.
Proof.
  split; [|split]; reflexivity.
Qed.

(** ** The privileged file write, outcome by outcome *)

Lemma bind_ok {A B} (m : M A) (k : A -> M B) w a w1 :
  m w = (Ok a, w1) -> bind m k w = k a w1.
Proof. intros H. unfold bind. rewrite H. reflexivity. Qed.




(** ** One mode after the other *)




(** ** A recorded mode and what follows it *)

Lemma replay_standard_marker ok_call d f :
  forallb (allows ok_call standard_policy_exec) d = true ->
  f = Some ("standard" +:+ nl) \/ In (Exec (marker_command "standard") 0) d ->
  replay d f = Some ("standard" +:+ nl).
Proof.
  revert f. induction d as [|e d IH]; intros f Hp Hin.
  - destruct Hin as [Hf|[]]. exact Hf.
  - simpl in Hp. apply andb_prop in Hp as [He Hd].
    destruct e as [c|c code|fn|t|p|p|p ct];
      try (simpl; apply IH; [exact Hd|];
           destruct Hin as [Hf|[Heq|Hin]]; [left; exact Hf|discriminate Heq|right; exact Hin]).
    simpl in He. unfold standard_policy_exec in He. apply negb_true_iff in He.
    simpl. apply IH; [exact Hd|]. unfold shell_effect. rewrite He.
    destruct (code =? 0)%Z eqn:Hcode.
    + destruct (c =? marker_command "standard") eqn:Hc; [left; reflexivity|].
      destruct Hin as [Hf|[Heq|Hin]]; [left; exact Hf| |right; exact Hin].
      injection Heq as -> _. rewrite String.eqb_refl in Hc. discriminate.
    + destruct Hin as [Hf|[Heq|Hin]]; [left; exact Hf| |right; exact Hin].
      injection Heq as _ ->. discriminate.
Qed.

(** X16. Once a marker command has succeeded, the mode it recorded is what
    the run leaves in the marker file, however the run ends: a sound step
    that fails after the install ends the process with status 1 and undoes
    nothing. *)
Theorem recorded_mode_survives h G0 args f mode :
  mode = "custom" \/ mode = "standard" ->
  In (Exec (marker_command mode) 0) (trace (snd (run h G0 args f))) ->
  state_file (snd (run h G0 args f)) = Some (mode +:+ nl).
Proof.
  intros [-> | ->] Hin.
  - apply persisted_custom. exact Hin.
  - destruct (custom args) eqn:Hflag.
    + destruct (run_policy h G0 args f _ _ (script_custom_policy h G0 args _ Hflag))
        as [Hp _].
      assert (Hex : In (marker_command "standard")
                       (execs (trace (snd (run h G0 args f))))).
      { unfold execs. apply in_flat_map. eexists. split; [exact Hin|left; reflexivity]. }
      pose proof (policy_execs _ _ _ _ Hp Hex) as Hok.
      unfold custom_policy_exec in Hok. rewrite String.eqb_refl, andb_false_r in Hok.
      discriminate Hok.
    + destruct (run_policy h G0 args f _ _ (script_standard_policy h G0 args _ Hflag))
        as [Hp Hs].
      rewrite Hs. eapply replay_standard_marker; [exact Hp|right; exact Hin].
Qed.

Lemma recorded_mode_survives_witness :
  let out := run (host_with_pipewire "Ubuntu 24.04.1 LTS" 1000 "make") prebound_globals
                 (flags false false true false) None in
  In (Exec (marker_command "standard") 0) (trace (snd out)) /\
  fst out = Raise (SystemExit 1) /\
  state_file (snd out) = Some ("standard" +:+ nl).
Proof.
  intros out.
  assert (Hin : In (Exec (marker_command "standard") 0) (trace (snd out)))
    by (vm_compute; tauto).
  split; [exact Hin|]. split; [vm_compute; reflexivity|].
  exact (recorded_mode_survives _ _ _ _ "standard" (or_intror eq_refl) Hin).
Defined.

(** ** The desktop and the common fix-ups *)

Lemma In_mem x l : In x l -> mem x l = true.
Proof.
  intros H. unfold mem. apply existsb_exists. exists x.
  split; [exact H|apply String.eqb_refl].
Qed.

Lemma not_mem_In x l : mem x l = false -> ~ In x l.
Proof. intros H Hin. apply In_mem in Hin. congruence. Qed.




(** ** The facts probed at import *)

Section FactsRules.

Variable h : Host.
Variable G0 : gmap string PyVal.
Variable facts : list string.

Local Abbreviation fixed := (inv (fun w => host_facts (glob w) = facts)).

(** A step that leaves the globals alone. *)
Lemma fixed_glob {A} (m : M A) : (forall w, glob (snd (m w)) = glob w) -> fixed m.
Proof.
  intros H w Hw. unfold wp. specialize (H w).
  destruct (m w) as [[a|e] w']; cbn [snd] in H; rewrite H; exact Hw.
Qed.

Lemma fixed_set_glob f :
  (forall g, host_facts (f g) = host_facts g) -> fixed (set_glob f).
Proof. intros Hf w Hw. unfold wp, set_glob. cbn [glob]. rewrite Hf. exact Hw. Qed.

Lemma fixed_run_command (command : string) (sudo verbose : bool) :
  fixed (run_command h command sudo verbose).
Proof.
  apply fixed_glob. intros w.
  unfold run_command, bind, try_except, when, print_colored, print, emit,
    subprocess_run_check, ret, raise.
  destruct verbose; cbn [trace state_file glob andb];
    match goal with
    | |- context [(returncode (subprocess_run h ?t ?c) =? 0)%Z] =>
        destruct (returncode (subprocess_run h t c) =? 0)%Z
    end;
    try (destruct (negb (stdout _ =? ""))); reflexivity.
Qed.

End FactsRules.

Ltac fixed_step :=
  lazymatch goal with
  | |- inv _ (bind _ _) => apply inv_bind; [|intros ?]
  | |- inv _ (ret _) => apply inv_ret
  | |- inv _ (raise _) => apply inv_raise
  | |- inv _ (when _ _) => apply inv_when
  | |- inv _ (for_each _ _) => apply inv_for_each; intros ?
  | |- inv _ (try_except _ _) => apply inv_try; [|intros ?]
  | |- inv _ (set_glob _) => apply fixed_set_glob; intros ?; reflexivity
  | |- inv _ (run_command _ _ _ _) => apply fixed_run_command
  | |- inv _ (if ?b then _ else _) => destruct b eqn:?
  | |- inv _ (match ?x with _ => _ end) => destruct x eqn:?
  | |- inv _ (open_readline _) =>
      apply fixed_glob; intros w; unfold open_readline; destruct (state_file w); reflexivity
  | |- inv _ (os_chdir _ _) =>
      apply fixed_glob; intros w; unfold os_chdir; destruct (chdir_ok _ _ _); reflexivity
  | |- inv _ (os_remove _ _) =>
      apply fixed_glob; intros w; unfold os_remove; destruct (remove_ok _ _ _); reflexivity
  | |- inv _ (load_name _ _) =>
      apply fixed_glob; intros w; unfold load_name; destruct (_ !! _); reflexivity
  | |- inv _ _ => apply fixed_glob; intros w; reflexivity
  end.

(** X18. The five globals bound from probes when the module is loaded
    (distribution description, code name, release, Ubuntu code name and
    download directory) are never assigned again: however a run ends, they
    hold the answers the host gave to those five probes. *)
Theorem host_facts_fixed h G0 args f :
  host_facts (glob (snd (run h G0 args f))) = probed_facts h.
Proof.
  assert (Hinit : exists w1, module_init h (start f) = (Ok tt, w1) /\
                             host_facts (glob w1) = probed_facts h).
  { eexists. split; reflexivity. }
  destruct Hinit as (w1 & Hinit & Hw1).
  unfold run, script. rewrite (bind_ok _ _ _ _ _ Hinit).
  apply inv_spec; [|exact Hw1].
  destruct args as [c r d s v cu n].
  unfold main, main_body, display_banner,
    check_previous_runs, detect_desktop_environment, check_os, check_hwe,
    install_cuda, prep_os, install_xrdp, install_prereqs, get_binaries,
    compile_source, enable_service, install_common, enable_sound, remove_xrdp;
  cbn [custom remove dev sound verbose cuda nexarian].
  repeat fixed_step.
Qed.

(** ** What the process asks *)

Lemma Only_refl p w : Only p w w.
Proof. exists []. rewrite app_nil_r. auto. Qed.

(** A step that only adds events [p] accepts. *)
Lemma only_grow {A} p w0 (m : M A) :
  (forall w, exists d, trace (snd (m w)) = (trace w ++ d)%list /\ forallb p d = true) ->
  inv (Only p w0) m.
Proof.
  intros H w (d0 & Ht0 & Hd0). unfold wp. destruct (H w) as (d & Ht & Hd).
  assert (Hw : Only p w0 (snd (m w))).
  { exists (d0 ++ d)%list. rewrite Ht, Ht0, app_assoc, forallb_app, Hd0, Hd. auto. }
  destruct (m w) as [[a|e] w']; exact Hw.
Qed.

Ltac grown :=
  first [exists []; split; [rewrite app_nil_r; reflexivity|reflexivity]
        |eexists; split; [reflexivity|reflexivity]
        |eexists; split; [rewrite <- ?app_assoc; reflexivity|reflexivity]].

Lemma only_run_command p w0 h (command : string) (sudo verbose : bool) :
  (forall e, match e with Probe _ => False | _ => True end -> p e = true) ->
  inv (Only p w0) (run_command h command sudo verbose).
Proof.
  intros Hp. apply only_grow. intros w.
  unfold run_command, bind, try_except, when, print_colored, print, emit,
    subprocess_run_check, ret, raise.
  destruct verbose; cbn [trace state_file glob andb];
    match goal with
    | |- context [(returncode (subprocess_run h ?t ?c) =? 0)%Z] =>
        destruct (returncode (subprocess_run h t c) =? 0)%Z
    end;
    try (destruct (negb (stdout _ =? "")));
    cbn [fst snd trace];
    (eexists; split; [rewrite <- ?app_assoc; reflexivity|]);
    cbn [forallb app]; rewrite ?Hp by exact Logic.I; reflexivity.
Qed.

Ltac only_step :=
  lazymatch goal with
  | |- inv _ (bind _ _) => apply inv_bind; [|intros ?]
  | |- inv _ (ret _) => apply inv_ret
  | |- inv _ (raise _) => apply inv_raise
  | |- inv _ (when _ _) => apply inv_when
  | |- inv _ (for_each _ _) => apply inv_for_each; intros ?
  | |- inv _ (try_except _ _) => apply inv_try; [|intros ?]
  | |- inv _ (run_command _ _ _ _) =>
      apply only_run_command; intros [] ?; first [reflexivity|contradiction]
  | |- inv _ (if ?b then _ else _) => destruct b eqn:?
  | |- inv _ (match ?x with _ => _ end) => destruct x eqn:?
  | |- inv _ (open_readline _) =>
      apply only_grow; intros w; unfold open_readline; destruct (state_file w); grown
  | |- inv _ (os_chdir _ _) =>
      apply only_grow; intros w; unfold os_chdir; destruct (chdir_ok _ _ _); grown
  | |- inv _ (os_remove _ _) =>
      apply only_grow; intros w; unfold os_remove; destruct (remove_ok _ _ _); grown
  | |- inv _ (load_name _ _) =>
      apply only_grow; intros w; unfold load_name; destruct (_ !! _); grown
  | |- inv _ _ => apply only_grow; intros w; grown
  end.

Lemma only_getoutput p w0 h cmd :
  p (Probe cmd) = true -> inv (Only p w0) (subprocess_getoutput h cmd).
Proof.
  intros Hp. apply only_grow. intros w. eexists. split; [reflexivity|].
  cbn [forallb]. rewrite Hp. reflexivity.
Qed.

Lemma only_check_hwe h G0 args w0 verbose :
  inv (Only (probe_policy G0 args) w0) (check_hwe h G0 verbose).
Proof.
  apply only_grow. intros w.
  unfold check_hwe, bind, emit, subprocess_getoutput, load_name, set_glob, ret, raise.
  cbn [trace state_file glob].
  destruct (G0 !! "Release") as [R|] eqn:HR; cbn [fst snd trace].
  - eexists. split; [rewrite <- ?app_assoc; reflexivity|].
    cbn [forallb app probe_policy]. rewrite HR.
    change ("dpkg-query -W -f='${Status}' xserver-xorg-core-hwe-" +:+ py_str R
            +:+ " 2>/dev/null") with (hwe_query (py_str R)).
    rewrite !String.eqb_refl, ?orb_true_r. reflexivity.
  - eexists. split; [rewrite <- ?app_assoc; reflexivity|]. reflexivity.
Qed.

Lemma script_probe_policy h G0 args w0 :
  inv (Only (probe_policy G0 args) w0) (script h G0 args).
Proof.
  destruct args as [c r d s v cu n].
  unfold script, module_init, main, main_body, display_banner,
    check_previous_runs, detect_desktop_environment, check_os,
    install_cuda, prep_os, install_xrdp, install_prereqs, get_binaries,
    compile_source, enable_service, install_common, enable_sound, remove_xrdp;
  cbn [custom remove dev sound verbose cuda nexarian].
  repeat first
    [ apply only_check_hwe
    | apply only_getoutput; cbn [probe_policy];
      first [reflexivity|destruct (G0 !! "Release"); reflexivity]
    | only_step ].
Qed.

(** X19. What a run asks the host through [subprocess.getoutput]: the
    five probes of the import, the two package queries of [check_hwe] (the
    second one for the package named after [Release]), and the query for the
    sound server; the last one only when sound is flagged and removal is
    not.  It asks nothing else, however it ends. *)
Theorem probes_of_a_run h G0 args f cmd :
  In cmd (probes (trace (snd (run h G0 args f)))) ->
  In cmd module_probes \/
  cmd = "dpkg-query -W -f='${Status}' xserver-xorg-core 2>/dev/null" \/
  (exists R, G0 !! "Release" = Some R /\ cmd = hwe_query (py_str R)) \/
  (cmd = sound_query /\ sound args = true /\ remove args = false).
Proof.
  intros Hin.
  destruct (inv_spec _ _ (start f) (script_probe_policy h G0 args (start f))
              (Only_refl _ _)) as (d & Ht & Hd).
  unfold run in Hin. rewrite Ht in Hin. cbn [start trace app] in Hin.
  unfold probes in Hin. apply in_flat_map in Hin as (e & He & Hc).
  rewrite forallb_forall in Hd. specialize (Hd e He).
  destruct e; try (destruct Hc; fail). destruct Hc as [->|[]].
  cbn [probe_policy] in Hd.
  apply orb_prop in Hd as [Hd|Hd]; [apply orb_prop in Hd as [Hd|Hd];
    [apply orb_prop in Hd as [Hd|Hd]|]|].
  - left. apply mem_In. exact Hd.
  - right. left. apply String.eqb_eq. exact Hd.
  - right. right. left. destruct (G0 !! "Release") as [R|]; [|discriminate].
    exists R. split; [reflexivity|]. apply String.eqb_eq. exact Hd.
  - right. right. right. apply andb_prop in Hd as [Hd H3].
    apply andb_prop in Hd as [H1 H2]. apply negb_true_iff in H2.
    apply String.eqb_eq in H3. auto.
Qed.

Lemma probes_of_a_run_witness :
  let out := run (ubuntu_host 1000) prebound_globals (flags false false true false) None in
  In sound_query (probes (trace (snd out))) /\
  sound (flags false false true false) = true.
Proof.
  intros out.
  assert (Hin : In sound_query (probes (trace (snd out)))) by (vm_compute; tauto).
  split; [exact Hin|].
  destruct (probes_of_a_run _ _ _ _ _ Hin) as [H|[H|[(R & _ & H)|(_ & H & _)]]];
    [| | |exact H].
  - exfalso. revert H. apply not_mem_In. reflexivity.
  - discriminate H.
  - exfalso. vm_compute in H. discriminate H.
Defined.

(** ** What the process announces *)

Lemma announced_app_len n d1 d2 :
  (length d1 <= n)%nat ->
  announced d1 = true -> announced d2 = true -> announced (d1 ++ d2) = true.
Proof.
  revert d1. induction n as [|n IH]; intros d1 Hn H1 H2.
  - destruct d1; [exact H2|simpl in Hn; lia].
  - destruct d1 as [|e d1]; [exact H2|]. simpl in Hn.
    assert (Hrest : forall d, (length d <= length d1)%nat -> announced d = true ->
                              announced (d ++ d2) = true)
      by (intros d Hd Ha; apply IH; [lia|exact Ha|exact H2]).
    destruct e as [c|c code|fn|t|p|p|p ct];
      try (simpl in *; apply (Hrest d1); [lia|exact H1]).
    + simpl in *. apply andb_prop in H1 as [Hm H1]. rewrite Hm.
      apply (Hrest d1); [lia|exact H1].
    + destruct d1 as [|e' d1'].
      * simpl. destruct d2 as [|e2 d2']; [reflexivity|].
        destruct e2; try exact H2. simpl in H2.
        apply andb_prop in H2 as [Hm H2]. rewrite Hm, orb_true_r. exact H2.
      * destruct e' as [c|c code|fn|t'|p|p|p ct];
          try (match goal with
               | |- announced ((Print _ :: ?e :: ?d) ++ _) = true =>
                   change (announced ((e :: d) ++ d2) = true);
                   apply (Hrest (e :: d)); [apply Nat.le_refl|exact H1]
               end).
        simpl in *. apply andb_prop in H1 as [Hm H1]. rewrite Hm.
        apply (Hrest d1'); [lia|exact H1].
Qed.

Lemma announced_app d1 d2 :
  announced d1 = true -> announced d2 = true -> announced (d1 ++ d2) = true.
Proof. apply (announced_app_len (length d1)). lia. Qed.

Lemma announced_split_len n d tr1 c code tr2 :
  (length d <= n)%nat ->
  announced d = true ->
  d = (tr1 ++ Exec c code :: tr2)%list ->
  is_marker c = false ->
  exists tr0, tr1 = (tr0 ++ [Print (announce c)])%list.
Proof.
  revert d tr1. induction n as [|n IH]; intros d tr1 Hn Ha Hd Hc.
  - subst d. rewrite length_app in Hn. simpl in Hn. lia.
  - destruct d as [|e d]; [destruct tr1; discriminate Hd|]. simpl in Hn.
    assert (Hrest : forall d' tr1', (length d' <= length d)%nat -> announced d' = true ->
                      d' = (tr1' ++ Exec c code :: tr2)%list ->
                      exists tr0, tr1' = (tr0 ++ [Print (announce c)])%list)
      by (intros d' tr1' Hd' Ha' He'; apply (IH d' tr1'); [lia|exact Ha'|exact He'|exact Hc]).
    assert (Hcons : forall e0 tr1', (exists tr0, tr1' = (tr0 ++ [Print (announce c)])%list) ->
                      exists tr0, e0 :: tr1' = (tr0 ++ [Print (announce c)])%list)
      by (intros e0 tr1' [tr0 ->]; exists (e0 :: tr0); reflexivity).
    destruct tr1 as [|e1 tr1].
    + simpl in Hd. injection Hd as -> _. simpl in Ha. rewrite Hc in Ha. discriminate Ha.
    + simpl in Hd. injection Hd as <- Hd.
      destruct e as [c0|c0 code0|fn|t|p|p|p ct];
        try (apply Hcons; apply (Hrest d tr1); [lia|exact Ha|exact Hd]).
      * simpl in Ha. apply andb_prop in Ha as [_ Ha].
        apply Hcons. apply (Hrest d tr1); [lia|exact Ha|exact Hd].
      * destruct d as [|e' d']; [destruct tr1; discriminate Hd|].
        destruct e' as [c0|c0 code0|fn|t'|p|p|p ct];
          try (match type of Hd with
               | ?e :: ?d0 = _ =>
                   apply Hcons; apply (Hrest (e :: d0) tr1);
                   [apply Nat.le_refl|exact Ha|exact Hd]
               end).
        simpl in Ha. apply andb_prop in Ha as [Hm Ha].
        destruct tr1 as [|e2 tr1].
        -- simpl in Hd. injection Hd as -> _ _. rewrite Hc, orb_false_r in Hm.
           apply String.eqb_eq in Hm. subst t. exists []. reflexivity.
        -- simpl in Hd. injection Hd as <- Hd.
           apply Hcons. apply Hcons. apply (Hrest d' tr1); [simpl; lia|exact Ha|exact Hd].
Qed.

Lemma Announced_refl w : Announced w w.
Proof. exists []. rewrite app_nil_r. auto. Qed.

(** A step that only adds announced events. *)
Lemma announced_grow {A} w0 (m : M A) :
  (forall w, exists d, trace (snd (m w)) = (trace w ++ d)%list /\ announced d = true) ->
  inv (Announced w0) m.
Proof.
  intros H w (d0 & Ht0 & Hd0). unfold wp. destruct (H w) as (d & Ht & Hd).
  assert (Hw : Announced w0 (snd (m w))).
  { exists (d0 ++ d)%list. rewrite Ht, Ht0, app_assoc. split; [reflexivity|].
    apply announced_app; assumption. }
  destruct (m w) as [[a|e] w']; exact Hw.
Qed.

Lemma announced_run_command w0 h (command : string) (sudo verbose : bool) :
  verbose = true \/ is_marker (if sudo then "sudo " +:+ command else command) = true ->
  inv (Announced w0) (run_command h command sudo verbose).
Proof.
  intros Hv. apply announced_grow. intros w.
  unfold run_command, bind, try_except, when, print_colored, print, emit,
    subprocess_run_check, ret, raise.
  fold (announce (if sudo then "sudo " +:+ command else command)).
  destruct verbose; cbn [trace state_file glob andb];
    match goal with
    | |- context [(returncode (subprocess_run h ?t ?c) =? 0)%Z] =>
        destruct (returncode (subprocess_run h t c) =? 0)%Z
    end;
    try (destruct (negb (stdout _ =? "")));
    cbn [fst snd trace];
    (eexists; split; [rewrite <- ?app_assoc; reflexivity|]);
    cbn [announced app]; rewrite ?String.eqb_refl; try reflexivity;
    destruct Hv as [Hv|Hv]; try discriminate Hv; rewrite Hv; reflexivity.
Qed.

Ltac said :=
  first [exists []; split; [rewrite app_nil_r; reflexivity|reflexivity]
        |eexists; split; [reflexivity|reflexivity]
        |eexists; split; [rewrite <- ?app_assoc; reflexivity|reflexivity]].

Ltac announced_step :=
  lazymatch goal with
  | |- inv _ (bind _ _) => apply inv_bind; [|intros ?]
  | |- inv _ (ret _) => apply inv_ret
  | |- inv _ (raise _) => apply inv_raise
  | |- inv _ (when _ _) => apply inv_when
  | |- inv _ (for_each _ _) => apply inv_for_each; intros ?
  | |- inv _ (try_except _ _) => apply inv_try; [|intros ?]
  | |- inv _ (run_command _ _ _ _) =>
      apply announced_run_command; first [left; reflexivity|right; reflexivity]
  | |- inv _ (if ?b then _ else _) => destruct b eqn:?
  | |- inv _ (match ?x with _ => _ end) => destruct x eqn:?
  | |- inv _ (open_readline _) =>
      apply announced_grow; intros w; unfold open_readline; destruct (state_file w); said
  | |- inv _ (os_chdir _ _) =>
      apply announced_grow; intros w; unfold os_chdir; destruct (chdir_ok _ _ _); said
  | |- inv _ (os_remove _ _) =>
      apply announced_grow; intros w; unfold os_remove; destruct (remove_ok _ _ _); said
  | |- inv _ (load_name _ _) =>
      apply announced_grow; intros w; unfold load_name; destruct (_ !! _); said
  | |- inv _ _ => apply announced_grow; intros w; said
  end.

Lemma script_announced h G0 args w0 :
  verbose args = true -> inv (Announced w0) (script h G0 args).
Proof.
  destruct args as [c r d s v cu n]. cbn [verbose]. intros ->.
  unfold_script. repeat announced_step.
Qed.

(** X20. With the verbose flag every command line a run dispatches is
    announced: the event just before it is the print of the yellow line
    "Executing: " with that command line.  The two commands that record the
    mode are the exception, since [main] takes their verbosity from the name
    [verbose] and not from the flag. *)
Theorem commands_announced h G0 args f tr1 c code tr2 :
  verbose args = true ->
  trace (snd (run h G0 args f)) = (tr1 ++ Exec c code :: tr2)%list ->
  is_marker c = false ->
  exists tr0, tr1 = (tr0 ++ [Print (announce c)])%list.
Proof.
  intros Hv Ht Hc.
  destruct (inv_spec _ _ (start f) (script_announced h G0 args (start f) Hv)
              (Announced_refl _)) as (d & Hd & Ha).
  unfold run in Ht. rewrite Hd in Ht. cbn [start trace app] in Ht.
  eapply (announced_split_len (length d)); [apply Nat.le_refl|exact Ha|exact Ht|exact Hc].
Qed.

Lemma commands_announced_witness :
  let args := mkArgs false false false false true false false in
  let out := run (ubuntu_host 1000) prebound_globals args None in
  trace (snd out) =
    (firstn 19 (trace (snd out)) ++
     Exec "sudo apt-get -y install pulseaudio-utils" 0 :: skipn 20 (trace (snd out)))%list /\
  exists tr0,
    firstn 19 (trace (snd out)) =
    (tr0 ++ [Print (announce "sudo apt-get -y install pulseaudio-utils")])%list.
Proof.
  intros args out.
  assert (Ht : trace (snd out) =
               (firstn 19 (trace (snd out)) ++
                Exec "sudo apt-get -y install pulseaudio-utils" 0
                :: skipn 20 (trace (snd out)))%list) by (vm_compute; reflexivity).
  split; [exact Ht|].
  exact (commands_announced (ubuntu_host 1000) prebound_globals args None _ _ _ _
           eq_refl Ht eq_refl).
Defined.
